(** * models.py: the validated planet record, the star record and [main]

    A shallow embedding of [src/models.py].  The module leans on three
    libraries whose behaviour is part of what the program does:
    - pydantic.  The names the module imports and calls ([validator],
      [BaseModel.json], [BaseModel.parse_raw]) are the interface of pydantic
      1.x, and the model follows that version: fields are validated in the
      order of the class, a validator's [ValueError] is collected into a
      [ValidationError] while any other exception leaves the constructor at
      once, unknown keys are ignored, instances are not frozen, and [json()]
      is [json.dumps] of [dict()];
    - the [json] module of the Python standard library ([json.dumps] and
      [json.loads] with their default arguments);
    - the built-in [float] and [str] types.

    Python values are modelled as follows.
    - [str] is [string]; a character is the code point of the same number,
      so the model covers the code points U+0000..U+00FF.  A JSON text that
      denotes a code point above U+00FF decodes to [OutsideModel].
    - [float] is the kernel's binary64 type [float]; [repr] and the
      conversion of a decimal literal are written out in [PyFloat].
    - [int] is [Z].
    - [float] of a [str], which pydantic tries on a radius given as a
      string, is left out: such an input ends in [NotModelled]. *)

From Stdlib Require Import ZArith Znumtheory List String Ascii Bool Lia Floats.
Import ListNotations.
Open Scope string_scope.
Open Scope Z_scope.

(** ** Python's [float] *)
Module PyFloat.

(** [x > 0] and [x <= 0] against the integer zero. *)
Definition gt0 (x : float) : bool := PrimFloat.ltb PrimFloat.zero x.
Definition le0 (x : float) : bool := PrimFloat.leb x PrimFloat.zero.

(** A fraction in lowest terms. *)
Definition reduce (n d : Z) : Z * Z :=
  let g := Z.gcd n d in (n / g, d / g).

(** [n / d] divided by [2 ^ e], as a fraction again. *)
Definition scaled (n d e : Z) : Z * Z :=
  if e <? 0 then (n * 2 ^ (- e), d) else (n, d * 2 ^ e).

(** The binary exponent of [n / d]: the [E] with [2 ^ E <= n / d < 2 ^ (E + 1)]. *)
Definition binary_exponent (n d : Z) : Z :=
  let e1 := Z.log2 n - Z.log2 d - 2 in
  let (n1, d1) := scaled n d e1 in
  e1 + Z.log2 (n1 / d1).

(** The integer nearest to [num / den], ties to even. *)
Definition round_half_even (num den : Z) : Z :=
  let q := num / den in
  let r := num mod den in
  if (den <? 2 * r) || ((den =? 2 * r) && Z.odd q) then q + 1 else q.

(** The binary64 value nearest to [n / d], ties to even, for [0 < n] and
    [0 < d]: the mantissa has 53 bits, or fewer at the smallest exponent. *)
Definition round_ratio (neg : bool) (n d : Z) : spec_float :=
  let e := Z.max (binary_exponent n d - 52) (-1074) in
  let (num, den) := scaled n d e in
  let m := round_half_even num den in
  let (m', e') := if m =? 2 ^ 53 then (2 ^ 52, e + 1) else (m, e) in
  match m' with
  | Zpos p => if e' <=? 971 then S754_finite neg p e' else S754_infinity neg
  | _ => S754_zero neg
  end.

(** [m * 10 ^ e], for [0 <= m], as a fraction and as a float: what [float]
    does with a decimal literal. *)
Definition decimal_ratio (m e : Z) : Z * Z :=
  if 0 <=? e then (m * 10 ^ e, 1) else (m, 10 ^ (- e)).

Definition round_decimal (neg : bool) (m e : Z) : spec_float :=
  if m =? 0 then S754_zero neg
  else let (n, d) := decimal_ratio m e in
       let (n', d') := reduce n d in round_ratio neg n' d'.

Definition of_decimal (neg : bool) (m e : Z) : float := SF2Prim (round_decimal neg m e).

(** [float(n)] for an [int]: [None] is Python's [OverflowError]. *)
Definition of_int (n : Z) : option float :=
  let f := of_decimal (n <? 0) (Z.abs n) 0 in
  if is_infinity f then None else Some f.

(** Equality of two float specifications, field by field. *)
Definition sf_same (a b : spec_float) : bool :=
  match a, b with
  | S754_zero s, S754_zero s' => Bool.eqb s s'
  | S754_infinity s, S754_infinity s' => Bool.eqb s s'
  | S754_nan, S754_nan => true
  | S754_finite s m e, S754_finite s' m' e' => Bool.eqb s s' && Pos.eqb m m' && Z.eqb e e'
  | _, _ => false
  end.

(** The magnitude of a finite non-zero float as a fraction [n / d]. *)
Definition magnitude (x : float) : option (Z * Z) :=
  match Prim2SF x with
  | S754_finite _ m e => Some (scaled (Zpos m) 1 (- e))
  | _ => None
  end.

(** [decpt n d] is the position of the decimal point:
    [10 ^ (decpt - 1) <= n / d < 10 ^ decpt]. *)
Fixpoint decpt_up (fuel : nat) (n d p : Z) : Z :=
  match fuel with
  | O => p
  | S f => if n <? d * 10 ^ p then p else decpt_up f n d (p + 1)
  end.
Fixpoint decpt_down (fuel : nat) (n d p : Z) : Z :=
  match fuel with
  | O => p
  | S f => if d <=? n * 10 ^ (1 - p) then p else decpt_down f n d (p - 1)
  end.
Definition decpt (n d : Z) : Z :=
  if d <=? n then decpt_up 400 n d 1 else decpt_down 400 n d 0.

(** The two decimals of [p] digits around [n / d], and which of them read
    back as [x]; the nearer one wins, and on a tie the even one. *)
Definition candidate (x : spec_float) (n d pt : Z) (p : Z) : option Z :=
  let s := p - pt in
  let num := if 0 <=? s then n * 10 ^ s else n in
  let den := if 0 <=? s then d else d * 10 ^ (- s) in
  let lo := num / den in
  let r := num mod den in
  let back c := sf_same (round_decimal false c (- s)) x in
  if r =? 0 then (if back lo then Some lo else None)
  else
    let hi := lo + 1 in
    let lo_first := (2 * r <? den) || ((2 * r =? den) && Z.even lo) in
    match back lo, back hi with
    | true, true => Some (if lo_first then lo else hi)
    | true, false => Some lo
    | false, true => Some hi
    | false, false => None
    end.

Fixpoint shortest (fuel : nat) (x : spec_float) (n d pt : Z) (p : Z) : option (Z * Z) :=
  match fuel with
  | O => None
  | S f =>
      match candidate x n d pt p with
      | Some c => Some (c, p)
      | None => shortest f x n d pt (p + 1)
      end
  end.

Definition digit_char (k : Z) : ascii := ascii_of_N (48 + Z.to_N k).

Fixpoint digits_acc (fuel : nat) (n : Z) (acc : string) : string :=
  match fuel with
  | O => acc
  | S f =>
      let acc' := String (digit_char (n mod 10)) acc in
      if n <? 10 then acc' else digits_acc f (n / 10) acc'
  end.

(** The decimal digits of [n], for [0 <= n]. *)
Definition digits_of (n : Z) : string := digits_acc (S (Z.to_nat (Z.log2 n))) n "".

(** The digits without the zeros at the end. *)
Fixpoint strip_zeros (s : string) : string :=
  match s with
  | "" => ""
  | String c r =>
      match strip_zeros r with
      | "" => if Ascii.eqb c "0" then "" else String c ""
      | r' => String c r'
      end
  end.

Fixpoint zeros (n : nat) : string :=
  match n with O => "" | S k => String "0" (zeros k) end.

Definition abs_sf (x : spec_float) : spec_float :=
  match x with
  | S754_finite _ m e => S754_finite false m e
  | other => other
  end.

(** The shortest digit string that reads back as [x], with the position of
    its decimal point (mode 0 of [_Py_dg_dtoa]). *)
Definition shortest_digits (x : float) : option (string * Z) :=
  match magnitude x with
  | None => None
  | Some (n, d) =>
      let pt := decpt n d in
      match shortest 17 (abs_sf (Prim2SF x)) n d pt 1 with
      | None => None
      | Some (c, p) =>
          let full := digits_of c in
          let pt' := pt + (Z.of_nat (String.length full) - p) in
          Some (strip_zeros full, pt')
      end
  end.

Definition two_digits (n : Z) : string :=
  if n <? 10 then "0" ++ digits_of n else digits_of n.

(** [format_float_short] with format code ['r'] and [Py_DTSF_ADD_DOT_0]. *)
Definition layout (ds : string) (pt : Z) : string :=
  let nd := Z.of_nat (String.length ds) in
  if (pt <=? -4) || (16 <? pt) then
    let mant :=
      match ds with
      | String c "" => String c ""
      | String c r => String c ("." ++ r)
      | "" => ""
      end in
    let e := pt - 1 in
    mant ++ "e" ++ (if e <? 0 then "-" else "+") ++ two_digits (Z.abs e)
  else if pt <=? 0 then "0." ++ zeros (Z.to_nat (- pt)) ++ ds
  else if nd <=? pt then ds ++ zeros (Z.to_nat (pt - nd)) ++ ".0"
  else substring 0 (Z.to_nat pt) ds ++ "."
       ++ substring (Z.to_nat pt) (Z.to_nat (nd - pt)) ds.

(** [float.__repr__] *)
Definition repr (x : float) : string :=
  if is_nan x then "nan"
  else if is_infinity x then (if get_sign x then "-inf" else "inf")
  else if is_zero x then (if get_sign x then "-0.0" else "0.0")
  else
    match shortest_digits x with
    | Some (ds, pt) => (if get_sign x then "-" else "") ++ layout ds pt
    | None => ""
    end.

End PyFloat.

(** ** Python values and JSON *)
Set Warnings "-register-all".

(** The values that reach the model class: what [json.loads] returns, and
    what [argparse] hands to [main]. *)
Inductive value : Type :=
| VNone
| VBool (b : bool)
| VInt (n : Z)
| VFloat (x : float)
| VStr (s : string)
| VList (l : list value)
| VDict (d : list (string * value)).

(** What a decoder yields: a value, Python's [JSONDecodeError], or a text the
    model does not cover (a code point above U+00FF, or more nesting than the
    decoder's fuel). *)
Inductive decoded (A : Type) : Type :=
| Decoded (a : A)
| DecodeError
| OutsideModel.
Arguments Decoded {A} a.
Arguments DecodeError {A}.
Arguments OutsideModel {A}.

Definition dbind {A B} (x : decoded A) (k : A -> decoded B) : decoded B :=
  match x with
  | Decoded a => k a
  | DecodeError => DecodeError
  | OutsideModel => OutsideModel
  end.

(** A [dict] keeps one entry per key, at the place of its first insertion. *)
Module Dict.
Fixpoint get {A} (d : list (string * A)) (k : string) : option A :=
  match d with
  | [] => None
  | (k', v) :: r => if String.eqb k' k then Some v else get r k
  end.
Fixpoint set {A} (d : list (string * A)) (k : string) (v : A) : list (string * A) :=
  match d with
  | [] => [(k, v)]
  | (k', v') :: r => if String.eqb k' k then (k', v) :: r else (k', v') :: set r k v
  end.
Definition of_pairs {A} (ps : list (string * A)) : list (string * A) :=
  fold_left (fun d p => set d (fst p) (snd p)) ps [].
End Dict.

(** The double quote, and [qq], which lets a JSON text be written with single
    quotes in this file. *)
Definition dquote : ascii := ascii_of_nat 34.

Definition int_repr (n : Z) : string :=
  if n <? 0 then "-" ++ PyFloat.digits_of (- n) else PyFloat.digits_of n.

Fixpoint join (sep : string) (l : list string) : string :=
  match l with
  | [] => ""
  | [x] => x
  | x :: r => x ++ sep ++ join sep r
  end.

Module Json.

Definition hex_digit (n : N) : ascii :=
  ascii_of_N (if (n <? 10)%N then 48 + n else 87 + n).

(** [ESCAPE_DCT] and the [\uXXXX] fallback of [py_encode_basestring_ascii]:
    everything outside [' '..'~'], the quote and the backslash are escaped. *)
Definition escape_char (c : ascii) : string :=
  let n := N_of_ascii c in
  if (n =? 34)%N then String "\" (String dquote "")
  else if (n =? 92)%N then "\\"
  else if (n =? 10)%N then "\n"
  else if (n =? 13)%N then "\r"
  else if (n =? 9)%N then "\t"
  else if (n =? 12)%N then "\f"
  else if (n =? 8)%N then "\b"
  else if ((n <? 32) || (126 <? n))%N then
    String "\" (String "u" (String "0" (String "0"
      (String (hex_digit (n / 16)) (String (hex_digit (n mod 16)) "")))))
  else String c "".

Fixpoint escape (s : string) : string :=
  match s with
  | "" => ""
  | String c r => escape_char c ++ escape r
  end.

Definition encode_string (s : string) : string :=
  String dquote (escape s ++ String dquote "").

(** [float] in [json.dumps] with [allow_nan=True]. *)
Definition encode_float (x : float) : string :=
  if is_nan x then "NaN"
  else if is_infinity x then (if get_sign x then "-Infinity" else "Infinity")
  else PyFloat.repr x.

(** [json.dumps] with the default separators [", "] and [": "]. *)
Fixpoint dumps (v : value) : string :=
  match v with
  | VNone => "null"
  | VBool true => "true"
  | VBool false => "false"
  | VInt n => int_repr n
  | VFloat x => encode_float x
  | VStr s => encode_string s
  | VList l => "[" ++ join ", " (map dumps l) ++ "]"
  | VDict d =>
      "{" ++ join ", " (map (fun kv => encode_string (fst kv) ++ ": " ++ dumps (snd kv)) d) ++ "}"
  end.

(** *** [json.loads] *)

Definition is_ws (c : ascii) : bool :=
  let n := N_of_ascii c in ((n =? 32) || (n =? 9) || (n =? 10) || (n =? 13))%N.

Fixpoint skip_ws (s : string) : string :=
  match s with
  | String c r => if is_ws c then skip_ws r else s
  | "" => ""
  end.

Fixpoint strip_prefix (p s : string) : option string :=
  match p, s with
  | "", _ => Some s
  | String a p', String b s' => if Ascii.eqb a b then strip_prefix p' s' else None
  | _, _ => None
  end.

Definition hex_value (c : ascii) : option N :=
  let n := N_of_ascii c in
  if ((48 <=? n) && (n <=? 57))%N then Some (n - 48)%N
  else if ((97 <=? n) && (n <=? 102))%N then Some (n - 87)%N
  else if ((65 <=? n) && (n <=? 70))%N then Some (n - 55)%N
  else None.

(** [BACKSLASH]: the one-character escapes. *)
Definition unescape (e : ascii) : option ascii :=
  let n := N_of_ascii e in
  if (n =? 34)%N then Some e
  else if (n =? 92)%N then Some e
  else if (n =? 47)%N then Some e
  else if (n =? 98)%N then Some (ascii_of_N 8)
  else if (n =? 102)%N then Some (ascii_of_N 12)
  else if (n =? 110)%N then Some (ascii_of_N 10)
  else if (n =? 114)%N then Some (ascii_of_N 13)
  else if (n =? 116)%N then Some (ascii_of_N 9)
  else None.

Definition cons_char (c : ascii) (x : decoded (string * string)) : decoded (string * string) :=
  dbind x (fun p => Decoded (String c (fst p), snd p)).

(** [scanstring] in strict mode, from the character after the opening quote:
    the decoded string and the text after the closing quote. *)
Fixpoint scanstring (s : string) : decoded (string * string) :=
  match s with
  | "" => DecodeError
  | String c r =>
      if (N_of_ascii c =? 34)%N then Decoded ("", r)
      else if (N_of_ascii c =? 92)%N then
        match r with
        | "" => DecodeError
        | String e r1 =>
            if (N_of_ascii e =? 117)%N then
              match r1 with
              | String h1 (String h2 (String h3 (String h4 r2))) =>
                  match hex_value h1, hex_value h2, hex_value h3, hex_value h4 with
                  | Some x, Some y, Some z, Some w =>
                      let n := (((x * 16 + y) * 16 + z) * 16 + w)%N in
                      if (n <? 256)%N then cons_char (ascii_of_N n) (scanstring r2)
                      else OutsideModel
                  | _, _, _, _ => DecodeError
                  end
              | _ => DecodeError
              end
            else
              match unescape e with
              | Some ch => cons_char ch (scanstring r1)
              | None => DecodeError
              end
        end
      else if (N_of_ascii c <? 32)%N then DecodeError
      else cons_char c (scanstring r)
  end.

Definition is_digit (c : ascii) : bool :=
  let n := N_of_ascii c in ((48 <=? n) && (n <=? 57))%N.

Fixpoint take_digits (s : string) : string * string :=
  match s with
  | String c r =>
      if is_digit c then let (ds, t) := take_digits r in (String c ds, t) else ("", s)
  | "" => ("", "")
  end.

Fixpoint digits_value_from (acc : Z) (ds : string) : Z :=
  match ds with
  | "" => acc
  | String c r => digits_value_from (10 * acc + (Z.of_N (N_of_ascii c) - 48)) r
  end.
Definition digits_value (ds : string) : Z := digits_value_from 0 ds.

(** [head_is c s]: the text after [c] when [s] starts with [c]. *)
Definition head_is (c : ascii) (s : string) : option string :=
  match s with
  | String x r => if Ascii.eqb x c then Some r else None
  | "" => None
  end.

(** [NUMBER_RE], the longest match: an optional minus, then a zero or a digit
    string without leading zero; a fraction (a dot and one digit or more) if
    there is one; an exponent (e or E, an optional sign, one digit or more)
    if there is one.  With a fraction or an exponent the literal goes to
    [float], else to [int]. *)
Definition scan_sign (s : string) : bool * string :=
  match head_is "-" s with
  | Some r => (true, r)
  | None => (false, s)
  end.

Definition scan_int (s : string) : option (string * string) :=
  match s with
  | String c r =>
      if is_digit c then Some (if Ascii.eqb c "0" then ("0", r) else take_digits s)
      else None
  | "" => None
  end.

Definition scan_frac (s : string) : string * string :=
  match head_is "." s with
  | Some r =>
      let (fd, t) := take_digits r in
      if String.eqb fd "" then ("", s) else (fd, t)
  | None => ("", s)
  end.

Definition scan_exp_sign (s : string) : bool * string :=
  match head_is "-" s, head_is "+" s with
  | Some r, _ => (true, r)
  | None, Some r => (false, r)
  | None, None => (false, s)
  end.

Definition scan_exp (s : string) : option Z * string :=
  match head_is "e" s, head_is "E" s with
  | None, None => (None, s)
  | Some r, _ | None, Some r =>
      let (eneg, t) := scan_exp_sign r in
      let (ed, u) := take_digits t in
      if String.eqb ed "" then (None, s)
      else (Some (if eneg then - digits_value ed else digits_value ed), u)
  end.

Definition number_value (neg : bool) (ip fp : string) (ex : option Z) : value :=
  match fp, ex with
  | "", None => VInt (if neg then - digits_value ip else digits_value ip)
  | _, _ =>
      let e := match ex with Some e => e | None => 0 end in
      VFloat (PyFloat.of_decimal neg (digits_value (ip ++ fp))
                (e - Z.of_nat (String.length fp)))
  end.

Definition scan_number (s : string) : option (value * string) :=
  let (neg, s1) := scan_sign s in
  match scan_int s1 with
  | None => None
  | Some (ip, s2) =>
      let (fp, s3) := scan_frac s2 in
      let (ex, s4) := scan_exp s3 in
      Some (number_value neg ip fp ex, s4)
  end.

(** The loop of [JSONArray], from the start of an element. *)
Fixpoint scan_items (scan : string -> decoded (value * string)) (n : nat) (s : string)
  : decoded (list value * string) :=
  match n with
  | O => OutsideModel
  | S n' =>
      dbind (scan s) (fun vr =>
        let t := skip_ws (snd vr) in
        match head_is "]" t, head_is "," t with
        | Some r', _ => Decoded ([fst vr], r')
        | None, Some r' =>
            dbind (scan_items scan n' (skip_ws r'))
                  (fun lr => Decoded (fst vr :: fst lr, snd lr))
        | None, None => DecodeError
        end)
  end.

(** The loop of [JSONObject], from the opening quote of a key. *)
Fixpoint scan_pairs (scan : string -> decoded (value * string)) (n : nat) (s : string)
  : decoded (list (string * value) * string) :=
  match n with
  | O => OutsideModel
  | S n' =>
      match head_is dquote s with
      | None => DecodeError
      | Some r =>
          dbind (scanstring r) (fun kr =>
            match head_is ":" (skip_ws (snd kr)) with
            | None => DecodeError
            | Some r2 =>
                dbind (scan (skip_ws r2)) (fun vr =>
                  let t := skip_ws (snd vr) in
                  match head_is "}" t, head_is "," t with
                  | Some r4, _ => Decoded ([(fst kr, fst vr)], r4)
                  | None, Some r4 =>
                      dbind (scan_pairs scan n' (skip_ws r4))
                            (fun pr => Decoded ((fst kr, fst vr) :: fst pr, snd pr))
                  | None, None => DecodeError
                  end)
            end)
      end
  end.

(** The constants, tried before the numbers. *)
Definition scan_constant (s : string) : option (value * string) :=
  match strip_prefix "null" s, strip_prefix "true" s, strip_prefix "false" s with
  | Some r, _, _ => Some (VNone, r)
  | None, Some r, _ => Some (VBool true, r)
  | None, None, Some r => Some (VBool false, r)
  | None, None, None => None
  end.

(** The names of the floats that are no numbers, tried after the numbers. *)
Definition scan_nonfinite (s : string) : option (value * string) :=
  match strip_prefix "NaN" s, strip_prefix "Infinity" s, strip_prefix "-Infinity" s with
  | Some r, _, _ => Some (VFloat nan, r)
  | None, Some r, _ => Some (VFloat infinity, r)
  | None, None, Some r => Some (VFloat neg_infinity, r)
  | None, None, None => None
  end.

Definition scan_scalar (s : string) : decoded (value * string) :=
  match scan_constant s with
  | Some vr => Decoded vr
  | None =>
      match scan_number s with
      | Some vr => Decoded vr
      | None =>
          match scan_nonfinite s with
          | Some vr => Decoded vr
          | None => DecodeError
          end
      end
  end.

(** [scan_once]: one JSON value at the head of [s]. *)
Fixpoint scan_once (fuel : nat) (s : string) : decoded (value * string) :=
  match fuel with
  | O => OutsideModel
  | S f =>
      match head_is dquote s, head_is "{" s, head_is "[" s with
      | Some r, _, _ =>
          dbind (scanstring r) (fun xr => Decoded (VStr (fst xr), snd xr))
      | None, Some r, _ =>
          let s' := skip_ws r in
          match head_is "}" s' with
          | Some r' => Decoded (VDict [], r')
          | None =>
              dbind (scan_pairs (scan_once f) (S (String.length s')) s')
                    (fun pr => Decoded (VDict (Dict.of_pairs (fst pr)), snd pr))
          end
      | None, None, Some r =>
          let s' := skip_ws r in
          match head_is "]" s' with
          | Some r' => Decoded (VList [], r')
          | None =>
              dbind (scan_items (scan_once f) (S (String.length s')) s')
                    (fun lr => Decoded (VList (fst lr), snd lr))
          end
      | None, None, None => scan_scalar s
      end
  end.

(** [json.loads]: one value between optional whitespace, and nothing else. *)
Definition loads (s : string) : decoded value :=
  let s0 := skip_ws s in
  dbind (scan_once (S (String.length s0)) s0) (fun vr =>
    match skip_ws (snd vr) with
    | "" => Decoded (fst vr)
    | _ => DecodeError
    end).

End Json.

(** ** Exceptions and outcomes *)

(** Where a field error sits: a field, or an item of a list field. *)
Inductive loc_item : Type :=
| LField (field : string)
| LIndex (i : nat).

(** The errors pydantic collects while it validates the fields. *)
Inductive error_kind : Type :=
| MissingError
| NoneIsNotAllowedError
| StrError
| FloatError
| ListError
| NumberNotGtError (limit_value : Z)
| ValueError (msg : string)
| JSONDecodeError
| ExpectedDictError.

Record ErrorWrapper : Type := { loc : list loc_item; exc : error_kind }.

(** The exceptions that leave the code of the module. *)
Inductive exception : Type :=
| ValidationError (errors : list ErrorWrapper)
| InvalidPlanetNameException (planet_name : string)
| OverflowError
| TypeError
| UnboundLocalError (variable : string).

(** A call returns, raises, or is not covered by the model ([float] of a
    [str], and a JSON text that decodes to [OutsideModel]). *)
Inductive outcome (A : Type) : Type :=
| Ok (a : A)
| Raise (e : exception)
| NotModelled.
Arguments Ok {A} a.
Arguments Raise {A} e.
Arguments NotModelled {A}.

(** What one validator, and one field, gives: a value, errors that pydantic
    collects (the validator raised [ValueError], [TypeError] or
    [AssertionError]), or an outcome that ends the validation at once. *)
Inductive stop : Type :=
| StopRaise (e : exception)
| StopNotModelled.

Inductive checked (A : Type) : Type :=
| Valid (a : A)
| Invalid (errors : list ErrorWrapper)
| Abort (why : stop).
Arguments Valid {A} a.
Arguments Invalid {A} errors.
Arguments Abort {A} why.

Definition stopped {A} (why : stop) : outcome A :=
  match why with
  | StopRaise e => Raise e
  | StopNotModelled => NotModelled
  end.

Definition errors_of {A} (c : checked A) : list ErrorWrapper :=
  match c with
  | Invalid errs => errs
  | _ => []
  end.

(** The validators of a field run in sequence; the first that fails ends the
    sequence. *)
Definition and_then {A B} (c : checked A) (k : A -> checked B) : checked B :=
  match c with
  | Valid a => k a
  | Invalid errs => Invalid errs
  | Abort why => Abort why
  end.

(** How a validator written in the module ends. *)
Inductive validator_exit (A : Type) : Type :=
| Returns (a : A)
| RaisesValueError (msg : string)
| Raises (e : exception).
Arguments Returns {A} a.
Arguments RaisesValueError {A} msg.
Arguments Raises {A} e.

(** The custom exception's message: [f"Invalid planet name: {planet_name}"]. *)
Definition InvalidPlanetNameException_message (planet_name : string) : string :=
  "Invalid planet name: " ++ planet_name.

(** ** [PlanetEnum] *)
Inductive PlanetEnum : Type := MERCURY | VENUS | EARTH | MARS.

Definition PlanetEnum_value (p : PlanetEnum) : string :=
  match p with
  | MERCURY => "Mercury"
  | VENUS => "Venus"
  | EARTH => "Earth"
  | MARS => "Mars"
  end.

Definition PlanetEnum_members : list PlanetEnum := [MERCURY; VENUS; EARTH; MARS].

(** [PlanetEnum._value2member_map_] *)
Definition value2member_map : list (string * PlanetEnum) :=
  map (fun p => (PlanetEnum_value p, p)) PlanetEnum_members.

(** [v in PlanetEnum._value2member_map_] *)
Definition is_planet_name (v : string) : bool :=
  match Dict.get value2member_map v with
  | Some _ => true
  | None => false
  end.

(** ** pydantic's validators for the three field types *)
Module Pydantic.

(** [str_validator]: a [str] as it is, a number through [str]. *)
Definition str_validator (v : value) : option string :=
  match v with
  | VStr s => Some s
  | VInt n => Some (int_repr n)
  | VFloat x => Some (PyFloat.repr x)
  | VBool b => Some (if b then "True" else "False")
  | _ => None
  end.

(** [float_validator]: a [float] as it is, anything else through [float]. *)
Definition float_validator (path : list loc_item) (v : value) : checked float :=
  match v with
  | VFloat x => Valid x
  | VInt n =>
      match PyFloat.of_int n with
      | Some x => Valid x
      | None => Abort (StopRaise OverflowError)
      end
  | VBool b => Valid (if b then 1%float else 0%float)
  | VStr _ => Abort StopNotModelled
  | _ => Invalid [{| loc := path; exc := FloatError |}]
  end.

(** [number_size_validator] with [gt=limit]: [not v > limit] is an error. *)
Definition number_size_validator_gt0 (path : list loc_item) (v : float) : checked float :=
  if PyFloat.gt0 v then Valid v
  else Invalid [{| loc := path; exc := NumberNotGtError 0 |}].

(** One item of a [List[str]] field. *)
Definition validate_str_item (path : list loc_item) (v : value) : list ErrorWrapper + string :=
  match v with
  | VNone => inl [{| loc := path; exc := NoneIsNotAllowedError |}]
  | _ =>
      match str_validator v with
      | Some s => inr s
      | None => inl [{| loc := path; exc := StrError |}]
      end
  end.

(** [_validate_sequence_like] for [List[str]]: every item is validated, the
    errors of all of them are kept. *)
Fixpoint validate_str_items (field : string) (i : nat) (l : list value)
  : list ErrorWrapper * list string :=
  match l with
  | [] => ([], [])
  | v :: r =>
      let (errs, vals) := validate_str_items field (S i) r in
      match validate_str_item [LField field; LIndex i] v with
      | inl e => ((e ++ errs)%list, vals)
      | inr s => (errs, s :: vals)
      end
  end.

Definition validate_str_list (field : string) (v : value) : checked (list string) :=
  match v with
  | VNone => Invalid [{| loc := [LField field]; exc := NoneIsNotAllowedError |}]
  | VList l =>
      match validate_str_items field 0 l with
      | ([], vals) => Valid vals
      | (errs, _) => Invalid errs
      end
  | _ => Invalid [{| loc := [LField field]; exc := ListError |}]
  end.

(** [_apply_validators] around one class validator: a [ValueError] becomes an
    error of the field, any other exception goes through. *)
Definition apply_validator {A} (path : list loc_item) (r : validator_exit A) : checked A :=
  match r with
  | Returns a => Valid a
  | RaisesValueError msg => Invalid [{| loc := path; exc := ValueError msg |}]
  | Raises e => Abort (StopRaise e)
  end.

(** One element of the argument of [dict(...)]: an iterable of two items. *)
Definition pair_of (v : value) : option (value * value) :=
  match v with
  | VList [k; x] => Some (k, x)
  | VStr (String a (String b "")) => Some (VStr (String a ""), VStr (String b ""))
  | VDict [(k1, _); (k2, _)] => Some (VStr k1, VStr k2)
  | _ => None
  end.

Definition hashable (v : value) : bool :=
  match v with
  | VList _ | VDict _ => false
  | _ => true
  end.

(** [dict(obj)] followed by the call of the class with the entries as keywords, for an [obj] that is
    not a [dict]: [inl false] when [dict] raises [TypeError] or [ValueError],
    [inl true] when a key is not a [str]. *)
Fixpoint pairs_of (l : list value) : option (list (value * value)) :=
  match l with
  | [] => Some []
  | v :: r =>
      match pair_of v, pairs_of r with
      | Some (k, x), Some ps => if hashable k then Some ((k, x) :: ps) else None
      | _, _ => None
      end
  end.

Fixpoint keywords (ps : list (value * value)) : option (list (string * value)) :=
  match ps with
  | [] => Some []
  | (VStr k, x) :: r =>
      match keywords r with
      | Some ks => Some ((k, x) :: ks)
      | None => None
      end
  | _ => None
  end.

Definition as_keywords (obj : value) : bool + list (string * value) :=
  match obj with
  | VDict d => inr d
  | VStr "" => inr []
  | VList l =>
      match pairs_of l with
      | None => inl false
      | Some ps =>
          match keywords ps with
          | Some ks => inr (Dict.of_pairs ks)
          | None => inl true
          end
      end
  | _ => inl false
  end.

End Pydantic.

(** ** The model class [AstronomicalBody] *)
Module AstronomicalBody.

Record t : Type := {
  name : string;
  radius : float;
  atmosphere_composition : list string
}.

(** [validate_name] *)
Definition validate_name (v : string) : validator_exit string :=
  if negb (is_planet_name v) then Raises (InvalidPlanetNameException v)
  else Returns v.

(** [validate_radius] *)
Definition validate_radius (v : float) : validator_exit float :=
  if PyFloat.le0 v then RaisesValueError "Radius must be a positive number."
  else Returns v.

(** The field [name: str = Field(...)] with its validator. *)
Definition check_name (v : value) : checked string :=
  match v with
  | VNone => Invalid [{| loc := [LField "name"]; exc := NoneIsNotAllowedError |}]
  | _ =>
      match Pydantic.str_validator v with
      | None => Invalid [{| loc := [LField "name"]; exc := StrError |}]
      | Some s => Pydantic.apply_validator [LField "name"] (validate_name s)
      end
  end.

(** The field [radius: float = Field(..., gt=0)] with its validator: the
    conversion to [float], then the bound [gt=0], then [validate_radius]. *)
Definition check_bounds (x : float) : checked float :=
  and_then (Pydantic.number_size_validator_gt0 [LField "radius"] x)
           (fun y => Pydantic.apply_validator [LField "radius"] (validate_radius y)).

Definition check_radius (v : value) : checked float :=
  match v with
  | VNone => Invalid [{| loc := [LField "radius"]; exc := NoneIsNotAllowedError |}]
  | _ =>
      and_then (Pydantic.float_validator [LField "radius"] v) check_bounds
  end.

(** The field [atmosphere_composition: List[str] = Field(...)]. *)
Definition check_atmosphere (v : value) : checked (list string) :=
  Pydantic.validate_str_list "atmosphere_composition" v.

(** A required field: missing from the input, or validated. *)
Definition required {A} (field : string) (check : value -> checked A)
  (data : list (string * value)) : checked A :=
  match Dict.get data field with
  | None => Invalid [{| loc := [LField field]; exc := MissingError |}]
  | Some v => check v
  end.

(** [validate_model]: the fields in the order of the class, the errors of all
    of them collected; keys that name no field are ignored. *)
Definition validate_model (data : list (string * value)) : outcome t :=
  match required "name" check_name data with
  | Abort why => stopped why
  | c1 =>
      match required "radius" check_radius data with
      | Abort why => stopped why
      | c2 =>
          match required "atmosphere_composition" check_atmosphere data with
          | Abort why => stopped why
          | c3 =>
              match c1, c2, c3 with
              | Valid n, Valid r, Valid a =>
                  Ok {| name := n; radius := r; atmosphere_composition := a |}
              | _, _, _ =>
                  Raise (ValidationError (errors_of c1 ++ errors_of c2 ++ errors_of c3)%list)
              end
          end
      end
  end.

(** The constructor, called with the keywords [data]. *)
Definition init (data : list (string * value)) : outcome t := validate_model data.

(** The call [AstronomicalBody(name=..., radius=..., atmosphere_composition=...)]
    with a [str], a [float] and a list of [str]. *)
Definition construct (n : string) (r : float) (a : list string) : outcome t :=
  init [("name", VStr n); ("radius", VFloat r);
        ("atmosphere_composition", VList (map VStr a))].

(** [self.dict()] *)
Definition dict (self : t) : list (string * value) :=
  [("name", VStr (name self)); ("radius", VFloat (radius self));
   ("atmosphere_composition", VList (map VStr (atmosphere_composition self)))].

(** [to_json]: [self.json()]. *)
Definition to_json (self : t) : string := Json.dumps (VDict (dict self)).

Definition root_error (k : error_kind) : exception :=
  ValidationError [{| loc := [LField "__root__"]; exc := k |}].

(** [parse_obj] *)
Definition parse_obj (obj : value) : outcome t :=
  match Pydantic.as_keywords obj with
  | inr d => init d
  | inl false => Raise (root_error ExpectedDictError)
  | inl true => Raise TypeError
  end.

(** [from_json]: [cls.parse_raw(json_str)]. *)
Definition from_json (json_str : string) : outcome t :=
  match Json.loads json_str with
  | Decoded obj => parse_obj obj
  | DecodeError => Raise (root_error JSONDecodeError)
  | OutsideModel => NotModelled
  end.

(** [__setattr__] with the default configuration ([allow_mutation] on,
    [validate_assignment] off): the new value is stored as it is. *)
Definition setattr_radius (self : t) (v : float) : t :=
  {| name := name self; radius := v; atmosphere_composition := atmosphere_composition self |}.
Definition setattr_name (self : t) (v : string) : t :=
  {| name := v; radius := radius self; atmosphere_composition := atmosphere_composition self |}.

End AstronomicalBody.

(** ** The data class [Star] *)
Module Star.

(** The field is annotated [float], and a data class stores what it is given:
    [main] passes the [int] 5778. *)
Inductive number : Type :=
| Int (n : Z)
| Float (x : float).

Record t : Type := {
  name : string;
  temperature : number
}.

(** What an f-string writes for a number: [str] of it. *)
Definition format_number (v : number) : string :=
  match v with
  | Int n => int_repr n
  | Float x => PyFloat.repr x
  end.

(** [__str__] *)
Definition str (self : t) : string :=
  name self ++ " (Temperature: " ++ format_number (temperature self) ++ "K)".

End Star.

(** ** [main] *)

(** The parsed command line: [--name], [--radius], and [--atmosphere], which
    is [None] when the flag is absent. *)
Record Namespace : Type := {
  arg_name : string;
  arg_radius : float;
  arg_atmosphere : option (list string)
}.

(** What [print] is given. *)
Inductive printable : Type :=
| PStr (s : string)
| PBody (b : AstronomicalBody.t)
| PErrors (e : list ErrorWrapper).

(** What the program does to the outside, in order. *)
Inductive event : Type :=
| Print (args : list printable)
| CreateContext
| Window (label : string)
| AddText (text : string)
| CreateViewport (title : string) (width height : Z)
| SetupDearpygui
| ShowViewport
| StartDearpygui
| DestroyContext.

(** How the process ends. *)
Inductive termination : Type :=
| Returned
| Uncaught (e : exception)
| Unknown.

(** The [try] statement of [main]: the events, and [body] if it was bound. *)
Inductive try_result : Type :=
| Continue (events : list event) (body : option AstronomicalBody.t)
| Escaped (events : list event) (t : termination).

(** The two [except] clauses, for an exception raised inside the [try]. *)
Definition handle (events : list event) (body : option AstronomicalBody.t)
  (o : outcome AstronomicalBody.t) (k : AstronomicalBody.t -> try_result) : try_result :=
  match o with
  | Ok b => k b
  | Raise (ValidationError e) =>
      Continue (events ++ [Print [PStr "Validation Error:"; PErrors e]])%list body
  | Raise (InvalidPlanetNameException n) =>
      Continue (events ++ [Print [PStr (InvalidPlanetNameException_message n)]])%list body
  | Raise e => Escaped events (Uncaught e)
  | NotModelled => Escaped events Unknown
  end.

Definition newline : string := String (ascii_of_nat 10) "".

Definition try_block (args : Namespace) : try_result :=
  let atmosphere :=
    match arg_atmosphere args with
    | Some l => VList (map VStr l)
    | None => VNone
    end in
  handle [] None
    (AstronomicalBody.init [("name", VStr (arg_name args)); ("radius", VFloat (arg_radius args));
                            ("atmosphere_composition", atmosphere)])
    (fun body =>
       let json_data := AstronomicalBody.to_json body in
       let events :=
         [Print [PStr "Astronomical Body Created:"; PBody body];
          Print [PStr "Serialized to JSON:"; PStr json_data];
          Print [PStr (newline ++ "Deserializing from JSON...")]] in
       handle events (Some body) (AstronomicalBody.from_json json_data)
         (fun restored =>
            Continue (events ++ [Print [PStr "Restored Astronomical Body:"; PBody restored]])%list
                     (Some body))).

Definition sun : Star.t := {| Star.name := "Sun"; Star.temperature := Star.Int 5778 |}.

Definition main (args : Namespace) : list event * termination :=
  match try_block args with
  | Escaped events t => (events, t)
  | Continue events body =>
      let events := (events ++ [Print [PStr (Star.str sun)]; CreateContext;
                               Window "Astronomical GUI"])%list in
      match body with
      | None => (events, Uncaught (UnboundLocalError "body"))
      | Some body =>
          ((events ++
            [AddText ("Planet Name: " ++ AstronomicalBody.name body);
             AddText ("Radius: " ++ PyFloat.repr (AstronomicalBody.radius body) ++ " km");
             AddText ("Atmosphere: " ++ join ", " (AstronomicalBody.atmosphere_composition body));
             AddText ("Star: " ++ Star.str sun);
             CreateViewport "Astronomical Simulator" 600 300;
             SetupDearpygui; ShowViewport; StartDearpygui; DestroyContext])%list,
           Returned)
      end
  end.

(** ** The vocabulary of the statements *)

(** The four accepted names, as the specification lists them. *)
Definition planet_names : list string := ["Mercury"; "Venus"; "Earth"; "Mars"].

(** The record of the example in the specification. *)
Definition earth : AstronomicalBody.t :=
  {| AstronomicalBody.name := "Earth"; AstronomicalBody.radius := 6371;
     AstronomicalBody.atmosphere_composition := ["N2"; "O2"] |}.





(** A text without comma. *)
Fixpoint no_comma (p : string) : bool :=
  match p with
  | "" => true
  | String c r => negb (Ascii.eqb c ",") && no_comma r
  end.

(** [x] is read back from the text [json.dumps] writes for it: what
    [float(repr(x)) == x] says about the JSON text of [x]. *)
Definition float_reads_back (x : float) : Prop :=
  Json.loads (Json.dumps (VFloat x)) = Decoded (VFloat x).

(** A string of decimal digits. *)
Fixpoint all_digits (s : string) : bool :=
  match s with
  | "" => true
  | String c r => Json.is_digit c && all_digits r
  end.

(** The digits written for [n], as a specification. *)
Record decimal_of (n : Z) (ds : string) : Prop := {
  dec_digits : all_digits ds = true;
  dec_value : forall a r, Json.digits_value_from a (ds ++ r)
                          = Json.digits_value_from (a * 10 ^ Z.of_nat (String.length ds) + n) r;
  dec_nonempty : ds <> "";
  dec_head : 0 < n -> exists c t, ds = String c t /\ Ascii.eqb c "0" = false;
  dec_size : 0 < n -> 10 ^ (Z.of_nat (String.length ds) - 1) <= n < 10 ^ Z.of_nat (String.length ds)
}.

(** A text that no digit string runs into. *)
Definition stops (r : string) : Prop :=
  match r with
  | "" => True
  | String c _ => Json.is_digit c = false
  end.

(** The parts of a decimal literal after the integer part: the fraction and
    the exponent, their texts and the value of the exponent. *)
Definition frac_text (fp : string) : string :=
  match fp with "" => "" | _ => String "." fp end.

Definition exp_text (ex : option (bool * string)) : string :=
  match ex with
  | Some (neg, ed) => String "e" (String (if neg then "-" else "+")%char ed)
  | None => ""
  end.

Definition exp_value (ex : option (bool * string)) : Z :=
  match ex with
  | Some (neg, ed) => if neg then - Json.digits_value ed else Json.digits_value ed
  | None => 0
  end.

Definition exp_ok (ex : option (bool * string)) : Prop :=
  match ex with
  | Some (_, ed) => all_digits ed = true /\ ed <> ""
  | None => True
  end.

(** What [layout] needs of the digits: digits only, and no zero in front. *)
Definition significant (ds : string) : Prop :=
  all_digits ds = true /\ exists c t, ds = String c t /\ Ascii.eqb c "0" = false.

(** [n / d] divided by [2 ^ k], as numerator and denominator, and the
    comparisons [t * 2 ^ k <= n / d] and [n / d < t * 2 ^ k]. *)
Definition num (n d k : Z) : Z := fst (PyFloat.scaled n d k).
Definition den (n d k : Z) : Z := snd (PyFloat.scaled n d k).
Definition above (n d t k : Z) : Prop := t * den n d k <= num n d k.
Definition below (n d t k : Z) : Prop := num n d k < t * den n d k.

(** ** The vocabulary of the further properties *)



(** The value [main] passes for the atmosphere: the list of [--atmosphere],
    or [None] when the option is not given. *)
Definition atmosphere_value (a : option (list string)) : value :=
  match a with
  | Some l => VList (map VStr l)
  | None => VNone
  end.

(** The arguments with which a run of [main] comes to its end. *)
Definition valid_args (args : Namespace) : bool :=
  is_planet_name (arg_name args) && PyFloat.gt0 (arg_radius args)
  && match arg_atmosphere args with Some _ => true | None => false end.

(** What every run does after the [try] statement, up to the first text of
    the window. *)
Definition star_events : list event :=
  [Print [PStr "Sun (Temperature: 5778K)"]; CreateContext; Window "Astronomical GUI"].

(** The window of a run that has a record. *)
Definition window_events (b : AstronomicalBody.t) : list event :=
  [AddText ("Planet Name: " ++ AstronomicalBody.name b);
   AddText ("Radius: " ++ PyFloat.repr (AstronomicalBody.radius b) ++ " km");
   AddText ("Atmosphere: " ++ join ", " (AstronomicalBody.atmosphere_composition b));
   AddText "Star: Sun (Temperature: 5778K)";
   CreateViewport "Astronomical Simulator" 600 300;
   SetupDearpygui; ShowViewport; StartDearpygui; DestroyContext].

Definition radius_error : ErrorWrapper :=
  {| loc := [LField "radius"]; exc := NumberNotGtError 0 |}.

Definition atmosphere_none_error : ErrorWrapper :=
  {| loc := [LField "atmosphere_composition"]; exc := NoneIsNotAllowedError |}.

(** A record with a radius that has a fraction. *)
Definition venus : AstronomicalBody.t :=
  {| AstronomicalBody.name := "Venus"; AstronomicalBody.radius := 6051.75;
     AstronomicalBody.atmosphere_composition := ["CO2"; "N2"] |}.



(** The three fields of the class, in its order. *)
Definition field_names : list string := ["name"; "radius"; "atmosphere_composition"].

(** * Properties *)

(** ** Floats against zero *)

Lemma Prim2SF_zero : Prim2SF PrimFloat.zero = S754_zero false.
Proof. reflexivity. Qed.

Lemma gt0_not_le0 (x : float) : PyFloat.gt0 x = true -> PyFloat.le0 x = false.
Proof.
  unfold PyFloat.gt0, PyFloat.le0. rewrite ltb_spec, leb_spec, Prim2SF_zero.
  unfold SFltb, SFleb, SFcompare.
  destruct (Prim2SF x) as [[] | [] | | [] m e]; simpl; congruence.
Qed.

Lemma le0_not_gt0 (x : float) : PyFloat.le0 x = true -> PyFloat.gt0 x = false.
Proof.
  intros H. destruct (PyFloat.gt0 x) eqn:G; [|reflexivity].
  apply gt0_not_le0 in G. congruence.
Qed.

(** ** Membership in the enumeration *)

Lemma is_planet_name_eqb (v : string) :
  is_planet_name v
  = (String.eqb "Mercury" v || String.eqb "Venus" v || String.eqb "Earth" v
     || String.eqb "Mars" v)%bool.
Proof.
  cbv -[String.eqb].
  destruct (String.eqb "Mercury" v), (String.eqb "Venus" v), (String.eqb "Earth" v),
    (String.eqb "Mars" v); reflexivity.
Qed.

Lemma is_planet_name_spec (v : string) : is_planet_name v = true <-> In v planet_names.
Proof.
  rewrite is_planet_name_eqb. unfold planet_names. cbv [In].
  repeat rewrite Bool.orb_true_iff. repeat rewrite String.eqb_eq. tauto.
Qed.

Lemma not_planet_name (v : string) : ~ In v planet_names -> is_planet_name v = false.
Proof.
  intros H. destruct (is_planet_name v) eqn:E; [|reflexivity].
  apply is_planet_name_spec in E. contradiction.
Qed.

Lemma planet_names_values : planet_names = map PlanetEnum_value PlanetEnum_members.
Proof. reflexivity. Qed.

(** ** The fields, one by one *)

Lemma validate_str_items_strings (field : string) (a : list string) (i : nat) :
  Pydantic.validate_str_items field i (map VStr a) = ([], a).
Proof.
  revert i. induction a as [|s a IH]; intros i; simpl; [reflexivity|].
  now rewrite IH.
Qed.

Lemma check_atmosphere_strings (a : list string) :
  AstronomicalBody.check_atmosphere (VList (map VStr a)) = Valid a.
Proof.
  unfold AstronomicalBody.check_atmosphere, Pydantic.validate_str_list.
  now rewrite validate_str_items_strings.
Qed.

Lemma check_name_planet (n : string) :
  is_planet_name n = true -> AstronomicalBody.check_name (VStr n) = Valid n.
Proof.
  intros H. unfold AstronomicalBody.check_name, AstronomicalBody.validate_name. simpl.
  now rewrite H.
Qed.

Lemma check_name_other (n : string) :
  is_planet_name n = false ->
  AstronomicalBody.check_name (VStr n) = Abort (StopRaise (InvalidPlanetNameException n)).
Proof.
  intros H. unfold AstronomicalBody.check_name, AstronomicalBody.validate_name. simpl.
  now rewrite H.
Qed.

Lemma check_radius_positive (r : float) :
  PyFloat.gt0 r = true -> AstronomicalBody.check_radius (VFloat r) = Valid r.
Proof.
  intros H. unfold AstronomicalBody.check_radius, AstronomicalBody.check_bounds,
    Pydantic.number_size_validator_gt0, AstronomicalBody.validate_radius. simpl.
  rewrite H. simpl. now rewrite (gt0_not_le0 r H).
Qed.

Lemma check_radius_not_positive (r : float) :
  PyFloat.gt0 r = false ->
  AstronomicalBody.check_radius (VFloat r)
  = Invalid [{| loc := [LField "radius"]; exc := NumberNotGtError 0 |}].
Proof.
  intros H. unfold AstronomicalBody.check_radius, AstronomicalBody.check_bounds,
    Pydantic.number_size_validator_gt0. simpl.
  now rewrite H.
Qed.

(** [validate_model] on an input whose three fields validate. *)
Lemma validate_model_valid (data : list (string * value)) (nv rv av : value)
  (n : string) (r : float) (a : list string) :
  Dict.get data "name" = Some nv -> AstronomicalBody.check_name nv = Valid n ->
  Dict.get data "radius" = Some rv -> AstronomicalBody.check_radius rv = Valid r ->
  Dict.get data "atmosphere_composition" = Some av ->
  AstronomicalBody.check_atmosphere av = Valid a ->
  AstronomicalBody.validate_model data
  = Ok {| AstronomicalBody.name := n; AstronomicalBody.radius := r;
          AstronomicalBody.atmosphere_composition := a |}.
Proof.
  intros G1 C1 G2 C2 G3 C3. unfold AstronomicalBody.validate_model, AstronomicalBody.required.
  now rewrite G1, C1, G2, C2, G3, C3.
Qed.

(** ** Construction *)

(** The constructor on a valid name, a radius above zero and a list of
    strings. *)
Lemma construct_ok (n : string) (r : float) (a : list string) :
  In n planet_names -> PyFloat.gt0 r = true ->
  AstronomicalBody.construct n r a
  = Ok {| AstronomicalBody.name := n; AstronomicalBody.radius := r;
          AstronomicalBody.atmosphere_composition := a |}.
Proof.
  intros Hn Hr. unfold AstronomicalBody.construct, AstronomicalBody.init.
  apply validate_model_valid with (nv := VStr n) (rv := VFloat r) (av := VList (map VStr a));
    try reflexivity.
  - apply check_name_planet, is_planet_name_spec, Hn.
  - apply check_radius_positive, Hr.
  - apply check_atmosphere_strings.
Qed.

(** C2: with a name of the fixed set and a radius greater than zero, the
    construction succeeds and the record holds the three inputs unchanged. *)
Theorem construct_valid_fields (n : string) (r : float) (a : list string) :
  In n planet_names -> PyFloat.gt0 r = true ->
  exists b,
    AstronomicalBody.construct n r a = Ok b
    /\ AstronomicalBody.name b = n
    /\ AstronomicalBody.radius b = r
    /\ AstronomicalBody.atmosphere_composition b = a.
Proof.
  intros Hn Hr. eexists. split; [apply (construct_ok n r a Hn Hr)|].
  repeat split.
Qed.

Lemma construct_valid_fields_witness :
  exists b,
    AstronomicalBody.construct "Venus" 6052 ["CO2"; "N2"] = Ok b
    /\ AstronomicalBody.name b = "Venus"
    /\ AstronomicalBody.radius b = 6052%float
    /\ AstronomicalBody.atmosphere_composition b = ["CO2"; "N2"].
Proof.
  apply construct_valid_fields.
  - simpl. right. left. reflexivity.
  - reflexivity.
Defined.

(** [validate_model] stops at the name: whatever the other fields hold. *)
Lemma validate_model_invalid_name (data : list (string * value)) (n : string) :
  Dict.get data "name" = Some (VStr n) -> is_planet_name n = false ->
  AstronomicalBody.validate_model data = Raise (InvalidPlanetNameException n).
Proof.
  intros G H. unfold AstronomicalBody.validate_model, AstronomicalBody.required.
  now rewrite G, (check_name_other n H).
Qed.

(** C3: a name outside the fixed set makes the construction raise
    [InvalidPlanetNameException] with that very name, whatever is passed for
    the radius and the atmosphere. *)
Theorem construct_invalid_name (n : string) (radius atmosphere : value) :
  ~ In n planet_names ->
  AstronomicalBody.init [("name", VStr n); ("radius", radius);
                         ("atmosphere_composition", atmosphere)]
  = Raise (InvalidPlanetNameException n).
Proof.
  intros H. apply validate_model_invalid_name; [reflexivity|].
  now apply not_planet_name.
Qed.

(** The match is exact and case-sensitive. *)
Lemma construct_lowercase_name :
  AstronomicalBody.construct "earth" 6371 ["N2"; "O2"]
  = Raise (InvalidPlanetNameException "earth").
Proof. reflexivity. Qed.

Lemma construct_invalid_name_witness :
  AstronomicalBody.init [("name", VStr "Pluto"); ("radius", VFloat 1188);
                         ("atmosphere_composition", VList [VStr "N2"])]
  = Raise (InvalidPlanetNameException "Pluto").
Proof.
  apply construct_invalid_name.
  simpl. intros [H | [H | [H | [H | []]]]]; discriminate H.
Defined.

Lemma check_atmosphere_total (av : value) :
  AstronomicalBody.check_atmosphere av = Valid (A := list string) []
  \/ (exists a, AstronomicalBody.check_atmosphere av = Valid a)
  \/ (exists errs, AstronomicalBody.check_atmosphere av = Invalid errs).
Proof.
  unfold AstronomicalBody.check_atmosphere, Pydantic.validate_str_list.
  destruct av; try (right; right; eexists; reflexivity).
  destruct (Pydantic.validate_str_items "atmosphere_composition" 0 l) as [[|e errs] vals].
  - right; left; eexists; reflexivity.
  - right; right; eexists; reflexivity.
Qed.

(** A radius that is not greater than zero, under a valid name: the error
    of the radius comes first, followed by the errors of the atmosphere. *)
Lemma validate_model_invalid_radius (data : list (string * value)) (n : string)
  (rv av : value) (r : float) :
  Dict.get data "name" = Some (VStr n) -> is_planet_name n = true ->
  Dict.get data "radius" = Some rv ->
  Pydantic.float_validator [LField "radius"] rv = Valid r -> PyFloat.gt0 r = false ->
  Dict.get data "atmosphere_composition" = Some av ->
  AstronomicalBody.validate_model data
  = Raise (ValidationError ({| loc := [LField "radius"]; exc := NumberNotGtError 0 |}
                              :: errors_of (AstronomicalBody.check_atmosphere av))).
Proof.
  intros G1 H1 G2 F H2 G3.
  assert (C : AstronomicalBody.check_radius rv
              = Invalid [{| loc := [LField "radius"]; exc := NumberNotGtError 0 |}]).
  { unfold AstronomicalBody.check_radius. rewrite F. simpl.
    unfold AstronomicalBody.check_bounds, Pydantic.number_size_validator_gt0. rewrite H2.
    destruct rv; try reflexivity. discriminate F. }
  unfold AstronomicalBody.validate_model, AstronomicalBody.required.
  rewrite G1, (check_name_planet n H1), G2, C, G3.
  destruct (check_atmosphere_total av) as [E | [[a E] | [errs E]]]; rewrite E; reflexivity.
Qed.

(** C4, as the code has it: under a name of the fixed set, a radius less than
    or equal to zero makes the construction raise [ValidationError]; the
    error of the radius is the first one and the errors of the atmosphere
    value follow it. *)
Theorem construct_invalid_radius (n : string) (r : float) (atmosphere : value) :
  In n planet_names -> PyFloat.le0 r = true ->
  AstronomicalBody.init [("name", VStr n); ("radius", VFloat r);
                         ("atmosphere_composition", atmosphere)]
  = Raise (ValidationError ({| loc := [LField "radius"]; exc := NumberNotGtError 0 |}
                              :: errors_of (AstronomicalBody.check_atmosphere atmosphere))).
Proof.
  intros Hn Hr. unfold AstronomicalBody.init.
  apply validate_model_invalid_radius with (n := n) (rv := VFloat r) (r := r);
    try reflexivity.
  - apply is_planet_name_spec, Hn.
  - apply le0_not_gt0, Hr.
Qed.

Lemma construct_invalid_radius_witness :
  AstronomicalBody.init [("name", VStr "Mars"); ("radius", VFloat (-100));
                         ("atmosphere_composition", VList [])]
  = Raise (ValidationError [{| loc := [LField "radius"]; exc := NumberNotGtError 0 |}]).
Proof.
  apply (construct_invalid_radius "Mars" (-100) (VList [])).
  - simpl. do 3 right. left. reflexivity.
  - reflexivity.
Defined.

(** C4, as the claim states it, fails: with a name outside the fixed set the
    construction raises [InvalidPlanetNameException], not [ValidationError],
    although the radius is negative. *)
Lemma invalid_radius_any_name_counterexample :
  PyFloat.le0 (-100) = true
  /\ AstronomicalBody.construct "Pluto" (-100) [] = Raise (InvalidPlanetNameException "Pluto")
  /\ ~ (exists errs, AstronomicalBody.construct "Pluto" (-100) [] = Raise (ValidationError errs)).
Proof.
  split; [reflexivity|]. split; [reflexivity|].
  intros [errs H]. discriminate H.
Qed.

(** ** The star *)

(** C8: the rendering is the name, then [" (Temperature: "], the number as
    [str] writes it, and ["K)"]; the star of [main] renders as in the
    specification, and a [float] temperature keeps its fraction. *)
Theorem star_str_format :
  (forall (n : string) (t : Star.number),
      Star.str {| Star.name := n; Star.temperature := t |}
      = n ++ " (Temperature: " ++ Star.format_number t ++ "K)")
  /\ Star.str {| Star.name := "Sun"; Star.temperature := Star.Int 5778 |}
     = "Sun (Temperature: 5778K)"
  /\ Star.str {| Star.name := "Sun"; Star.temperature := Star.Float 5778 |}
     = "Sun (Temperature: 5778.0K)".
Proof.
  split; [reflexivity|]. split; vm_compute; reflexivity.
Qed.

(** ** The top level *)

(** After a failed construction [body] is not bound, and the first text of
    the window reads it. *)
Lemma main_after_failed_construction (args : Namespace) (events : list event) :
  try_block args = Continue events None ->
  main args = ((events ++ [Print [PStr (Star.str sun)]; CreateContext;
                           Window "Astronomical GUI"])%list,
               Uncaught (UnboundLocalError "body")).
Proof. intros H. unfold main. now rewrite H. Qed.

(** C9: on [--name Pluto --radius 1188.0 --atmosphere N2] the message of
    the exception and the star are printed, the window is opened, and the
    program ends with an uncaught [UnboundLocalError]. *)
Theorem main_invalid_name_crashes :
  main {| arg_name := "Pluto"; arg_radius := 1188; arg_atmosphere := Some ["N2"] |}
  = ([Print [PStr "Invalid planet name: Pluto"];
      Print [PStr "Sun (Temperature: 5778K)"];
      CreateContext; Window "Astronomical GUI"],
     Uncaught (UnboundLocalError "body")).
Proof. vm_compute. reflexivity. Qed.

(** The same for a radius that fails the validation. *)
Lemma main_invalid_radius_crashes :
  main {| arg_name := "Mars"; arg_radius := -100; arg_atmosphere := Some ["CO2"] |}
  = ([Print [PStr "Validation Error:";
             PErrors [{| loc := [LField "radius"]; exc := NumberNotGtError 0 |}]];
      Print [PStr "Sun (Temperature: 5778K)"];
      CreateContext; Window "Astronomical GUI"],
     Uncaught (UnboundLocalError "body")).
Proof. vm_compute. reflexivity. Qed.

(** Whenever the construction raises one of the two handled exceptions, the
    run ends this way. *)
Lemma main_failed_construction_uncaught (args : Namespace) (e : exception) :
  AstronomicalBody.init
    [("name", VStr (arg_name args)); ("radius", VFloat (arg_radius args));
     ("atmosphere_composition",
      match arg_atmosphere args with Some l => VList (map VStr l) | None => VNone end)]
  = Raise e ->
  (exists errs, e = ValidationError errs) \/ (exists n, e = InvalidPlanetNameException n) ->
  snd (main args) = Uncaught (UnboundLocalError "body").
Proof.
  intros H K. unfold main, try_block. rewrite H.
  destruct K as [[errs ->] | [n ->]]; reflexivity.
Qed.

(** ** What a returned record satisfies *)

Lemma validate_name_valid_inv (path : list loc_item) (s n : string) :
  Pydantic.apply_validator path (AstronomicalBody.validate_name s) = Valid n ->
  is_planet_name n = true.
Proof.
  unfold AstronomicalBody.validate_name.
  destruct (is_planet_name s) eqn:E; simpl; try discriminate.
  intros H; injection H as <-; exact E.
Qed.

Lemma check_name_valid_inv (v : value) (n : string) :
  AstronomicalBody.check_name v = Valid n -> is_planet_name n = true.
Proof.
  unfold AstronomicalBody.check_name.
  destruct v; simpl; try discriminate; apply validate_name_valid_inv.
Qed.

Lemma check_bounds_valid_inv (x r : float) :
  AstronomicalBody.check_bounds x = Valid r -> r = x /\ PyFloat.gt0 x = true.
Proof.
  unfold AstronomicalBody.check_bounds, Pydantic.number_size_validator_gt0,
    AstronomicalBody.validate_radius.
  destruct (PyFloat.gt0 x) eqn:G; simpl; try discriminate.
  destruct (PyFloat.le0 x); simpl; try discriminate.
  intros H; injection H as <-; split; reflexivity.
Qed.

Lemma check_radius_valid_inv (v : value) (r : float) :
  AstronomicalBody.check_radius v = Valid r -> PyFloat.gt0 r = true.
Proof.
  unfold AstronomicalBody.check_radius. intros H.
  assert (K : forall c : checked float,
             and_then c AstronomicalBody.check_bounds = Valid r -> PyFloat.gt0 r = true).
  { intros [x | errs | why] E; try discriminate.
    apply check_bounds_valid_inv in E. destruct E as [-> G]. exact G. }
  destruct v; try discriminate; apply (K _ H).
Qed.

Lemma validate_model_ok_inv (data : list (string * value)) (b : AstronomicalBody.t) :
  AstronomicalBody.validate_model data = Ok b ->
  (exists v, Dict.get data "name" = Some v
             /\ AstronomicalBody.check_name v = Valid (AstronomicalBody.name b))
  /\ (exists v, Dict.get data "radius" = Some v
                /\ AstronomicalBody.check_radius v = Valid (AstronomicalBody.radius b))
  /\ (exists v, Dict.get data "atmosphere_composition" = Some v
                /\ AstronomicalBody.check_atmosphere v
                   = Valid (AstronomicalBody.atmosphere_composition b)).
Proof.
  unfold AstronomicalBody.validate_model, AstronomicalBody.required.
  destruct (Dict.get data "name") as [v1|];
    [destruct (AstronomicalBody.check_name v1) as [n | e1 | [x1|]] eqn:C1|];
    (destruct (Dict.get data "radius") as [v2|];
     [destruct (AstronomicalBody.check_radius v2) as [r | e2 | [x2|]] eqn:C2|]);
    (destruct (Dict.get data "atmosphere_composition") as [v3|];
     [destruct (AstronomicalBody.check_atmosphere v3) as [a | e3 | [x3|]] eqn:C3|]);
    simpl; try discriminate.
  intros H; injection H as <-; simpl.
  repeat split; eexists; split; try reflexivity; assumption.
Qed.

Lemma parse_obj_init (obj : value) (b : AstronomicalBody.t) :
  AstronomicalBody.parse_obj obj = Ok b ->
  exists data, AstronomicalBody.init data = Ok b.
Proof.
  unfold AstronomicalBody.parse_obj.
  destruct (Pydantic.as_keywords obj) as [[|] | d]; try discriminate.
  intros H; now exists d.
Qed.

Lemma from_json_init (s : string) (b : AstronomicalBody.t) :
  AstronomicalBody.from_json s = Ok b ->
  exists data, AstronomicalBody.init data = Ok b.
Proof.
  unfold AstronomicalBody.from_json.
  destruct (Json.loads s) as [obj| |]; try discriminate.
  apply parse_obj_init.
Qed.

(** C6, as the code has it: a record that the constructor or [from_json]
    returns has a name of the fixed set and a radius greater than zero. *)
Theorem returned_record_satisfies_constraints (b : AstronomicalBody.t) :
  (exists data, AstronomicalBody.init data = Ok b)
  \/ (exists s, AstronomicalBody.from_json s = Ok b) ->
  In (AstronomicalBody.name b) planet_names
  /\ PyFloat.gt0 (AstronomicalBody.radius b) = true.
Proof.
  intros [[data H] | [s H]]; [|apply from_json_init in H; destruct H as [data H]];
    apply validate_model_ok_inv in H;
    destruct H as [[v1 [_ C1]] [[v2 [_ C2]] _]];
    (split; [apply is_planet_name_spec, (check_name_valid_inv _ _ C1)
            | apply (check_radius_valid_inv _ _ C2)]).
Qed.

Lemma returned_record_satisfies_constraints_witness :
  In (AstronomicalBody.name earth) planet_names
  /\ PyFloat.gt0 (AstronomicalBody.radius earth) = true.
Proof.
  apply returned_record_satisfies_constraints.
  left. exists (AstronomicalBody.dict earth). reflexivity.
Defined.

(** C6, as the claim states it, fails: the class keeps pydantic's default
    configuration, under which a field can be assigned after construction
    and the new value is not validated. *)
Lemma record_is_mutable_counterexample :
  AstronomicalBody.construct "Earth" 6371 ["N2"; "O2"] = Ok earth
  /\ PyFloat.gt0 (AstronomicalBody.radius (AstronomicalBody.setattr_radius earth (-1))) = false
  /\ ~ In (AstronomicalBody.name (AstronomicalBody.setattr_name earth "Pluto")) planet_names.
Proof.
  split; [reflexivity|]. split; [reflexivity|].
  simpl. intros [H | [H | [H | [H | []]]]]; discriminate H.
Qed.

(** ** Serialization of the example record *)



(** ** Deserialization *)

(** On a text that decodes to an object, [from_json] is the constructor
    called with the entries of the object. *)
Lemma from_json_object (s : string) (d : list (string * value)) :
  Json.loads s = Decoded (VDict d) ->
  AstronomicalBody.from_json s = AstronomicalBody.init d.
Proof.
  intros H. unfold AstronomicalBody.from_json. now rewrite H.
Qed.





(** ** Encoded strings are read back *)

Lemma scanstring_escape_char (c : ascii) (t : string) :
  Json.scanstring (Json.escape_char c ++ t) = Json.cons_char c (Json.scanstring t).
Proof.
  destruct c as [[] [] [] [] [] [] [] []]; reflexivity.
Qed.

Lemma append_assoc (a b c : string) : (a ++ b) ++ c = a ++ (b ++ c).
Proof. induction a as [|x a IH]; simpl; [reflexivity | now rewrite IH]. Qed.

Lemma scanstring_escape (s rest : string) :
  Json.scanstring (Json.escape s ++ String dquote rest) = Decoded (s, rest).
Proof.
  induction s as [|c s IH]; simpl; [reflexivity|].
  now rewrite append_assoc, scanstring_escape_char, IH.
Qed.

Lemma encode_string_app (s rest : string) :
  Json.encode_string s ++ rest = String dquote (Json.escape s ++ String dquote rest).
Proof.
  unfold Json.encode_string. simpl. now rewrite append_assoc.
Qed.

Lemma scan_once_string (f : nat) (s rest : string) :
  Json.scan_once (S f) (Json.encode_string s ++ rest) = Decoded (VStr s, rest).
Proof.
  rewrite encode_string_app. simpl. now rewrite scanstring_escape.
Qed.

Lemma skip_ws_encode_string (s rest : string) :
  Json.skip_ws (Json.encode_string s ++ rest) = Json.encode_string s ++ rest.
Proof. rewrite encode_string_app. reflexivity. Qed.

(** ** A list of strings is read back *)

Lemma join_cons (sep x : string) (y : string) (l : list string) :
  join sep (x :: y :: l) = x ++ sep ++ join sep (y :: l).
Proof. reflexivity. Qed.

Lemma skip_ws_space (r : string) : Json.skip_ws (String " " r) = Json.skip_ws r.
Proof. reflexivity. Qed.

(** One turn of the loop of an array: another element follows, or the array
    ends. *)
Lemma scan_items_more (scan : string -> decoded (value * string)) (n : nat)
  (s t r : string) (v : value) :
  scan s = Decoded (v, t) -> Json.skip_ws t = String "," r ->
  Json.scan_items scan (S n) s
  = dbind (Json.scan_items scan n (Json.skip_ws r))
          (fun lr => Decoded (v :: fst lr, snd lr)).
Proof. intros H W. simpl. rewrite H. simpl. rewrite W. reflexivity. Qed.

Lemma scan_items_end (scan : string -> decoded (value * string)) (n : nat)
  (s t r : string) (v : value) :
  scan s = Decoded (v, t) -> Json.skip_ws t = String "]" r ->
  Json.scan_items scan (S n) s = Decoded ([v], r).
Proof. intros H W. simpl. rewrite H. simpl. rewrite W. reflexivity. Qed.

Lemma skip_ws_joined (s0 : string) (a : list string) (u : string) :
  exists t, join ", " (map Json.encode_string (s0 :: a)) ++ u = String dquote t
            /\ Json.skip_ws (String dquote t) = String dquote t.
Proof.
  destruct a; [cbn [map join] | cbn [map]; rewrite join_cons, append_assoc];
    rewrite encode_string_app; eexists; split; reflexivity.
Qed.

Lemma scan_items_strings (f : nat) (a : list string) (s0 : string) (n : nat) (rest : string) :
  (List.length a < n)%nat ->
  Json.scan_items (Json.scan_once (S f)) n
    (join ", " (map Json.encode_string (s0 :: a)) ++ String "]" rest)
  = Decoded (map VStr (s0 :: a), rest).
Proof.
  revert s0 n. induction a as [|s1 a IH]; intros s0 n Hn;
    (destruct n as [|n]; [simpl in Hn; lia|]).
  - cbn [map join]. eapply scan_items_end; [apply scan_once_string | reflexivity].
  - change (map Json.encode_string (s0 :: s1 :: a))
      with (Json.encode_string s0 :: map Json.encode_string (s1 :: a)).
    change (join ", " (Json.encode_string s0 :: map Json.encode_string (s1 :: a)))
      with (Json.encode_string s0 ++ ", " ++ join ", " (map Json.encode_string (s1 :: a))).
    rewrite append_assoc.
    set (J := join ", " (map Json.encode_string (s1 :: a))).
    change ((", " ++ J) ++ String "]" rest)
      with (String "," (String " " (J ++ String "]" rest))).
    rewrite (scan_items_more _ n _ (String "," (String " " (J ++ String "]" rest)))
               (String " " (J ++ String "]" rest)) (VStr s0));
      [|apply scan_once_string|reflexivity].
    rewrite skip_ws_space. subst J.
    destruct (skip_ws_joined s1 a (String "]" rest)) as [t [Q W]].
    pose proof (IH s1 n ltac:(simpl in Hn; lia)) as K.
    rewrite Q in K |- *. rewrite W, K. reflexivity.
Qed.

Lemma length_append_le (x y : string) :
  (String.length y <= String.length (x ++ y))%nat.
Proof. induction x; simpl; lia. Qed.

Lemma join_encoded_length (a : list string) (u : string) :
  (List.length a <= String.length (join ", " (map Json.encode_string a) ++ u))%nat.
Proof.
  induction a as [|s0 a IH]; [simpl; lia|].
  destruct a as [|s1 a].
  - cbn [map join]. rewrite encode_string_app. simpl. lia.
  - change (map Json.encode_string (s0 :: s1 :: a))
      with (Json.encode_string s0 :: map Json.encode_string (s1 :: a)) in *.
    change (join ", " (Json.encode_string s0 :: map Json.encode_string (s1 :: a)))
      with (Json.encode_string s0 ++ ", " ++ join ", " (map Json.encode_string (s1 :: a))).
    rewrite !append_assoc, encode_string_app.
    set (X := join ", " (map Json.encode_string (s1 :: a)) ++ u) in *.
    change (", " ++ X) with (String "," (String " " X)).
    pose proof (length_append_le (Json.escape s0) (String dquote (String "," (String " " X)))) as L.
    cbn [String.length List.length] in *. lia.
Qed.

(** [json.loads] reads a list of strings written by [json.dumps]. *)
Lemma scan_once_string_list (f : nat) (a : list string) (rest : string) :
  Json.scan_once (S (S f)) (Json.dumps (VList (map VStr a)) ++ rest)
  = Decoded (VList (map VStr a), rest).
Proof.
  cbn [Json.dumps]. rewrite map_map. cbn [Json.dumps].
  change (fun x : string => Json.encode_string x) with Json.encode_string.
  destruct a as [|s0 a]; [reflexivity|].
  change (("[" ++ join ", " (map Json.encode_string (s0 :: a)) ++ "]") ++ rest)
    with (String "[" ((join ", " (map Json.encode_string (s0 :: a)) ++ "]") ++ rest)).
  rewrite append_assoc.
  change ("]" ++ rest) with (String "]" rest).
  destruct (skip_ws_joined s0 a (String "]" rest)) as [t [Q W]].
  pose proof (join_encoded_length (s0 :: a) (String "]" rest)) as Len.
  pose proof (scan_items_strings f a s0 (S (String.length (String dquote t))) rest) as K.
  rewrite Q in *. cbn [List.length] in Len.
  specialize (K ltac:(lia)).
  change (Json.scan_once (S (S f)) (String "[" (String dquote t)))
    with (dbind (Json.scan_items (Json.scan_once (S f))
                   (S (String.length (String dquote t))) (String dquote t))
                (fun lr => Decoded (VList (fst lr), snd lr))).
  rewrite K. reflexivity.
Qed.

(** ** A scalar followed by a comma

    What the scanner reads at the head of [t] it also reads at the head of
    [t ++ "," ++ rest], and leaves the comma: no token of the grammar
    contains a comma. *)

Section BeforeComma.
Variable rest : string.
Let u : string := String "," rest.

Lemma head_is_app (c : ascii) (t : string) :
  Ascii.eqb "," c = false ->
  Json.head_is c (t ++ u) = option_map (fun r => r ++ u) (Json.head_is c t).
Proof.
  intros H. destruct t as [|x t]; cbn [append Json.head_is option_map].
  - unfold u. cbn [Json.head_is]. now rewrite H.
  - destruct (Ascii.eqb x c); reflexivity.
Qed.

Lemma take_digits_app (t : string) :
  Json.take_digits (t ++ u)
  = (fst (Json.take_digits t), snd (Json.take_digits t) ++ u).
Proof.
  induction t as [|c t IH]; [reflexivity|].
  simpl. destruct (Json.is_digit c); [|reflexivity].
  rewrite IH. destruct (Json.take_digits t); reflexivity.
Qed.

Lemma scan_sign_app (t : string) :
  Json.scan_sign (t ++ u) = (fst (Json.scan_sign t), snd (Json.scan_sign t) ++ u).
Proof.
  unfold Json.scan_sign. rewrite head_is_app by reflexivity.
  destruct (Json.head_is "-" t); reflexivity.
Qed.

Lemma scan_int_app (t : string) :
  t <> "" ->
  Json.scan_int (t ++ u)
  = option_map (fun p => (fst p, snd p ++ u)) (Json.scan_int t).
Proof.
  intros N. destruct t as [|c t]; [contradiction|].
  unfold Json.scan_int. cbn [append].
  destruct (Json.is_digit c); [|reflexivity].
  destruct (Ascii.eqb c "0"); [reflexivity|]. cbn [option_map].
  change (String c (t ++ u)) with (String c t ++ u).
  rewrite take_digits_app. reflexivity.
Qed.

Lemma scan_int_comma : Json.scan_int u = None.
Proof. reflexivity. Qed.

Lemma scan_frac_app (t : string) :
  Json.scan_frac (t ++ u) = (fst (Json.scan_frac t), snd (Json.scan_frac t) ++ u).
Proof.
  unfold Json.scan_frac. rewrite head_is_app by reflexivity.
  destruct (Json.head_is "." t) as [r|]; simpl; [|reflexivity].
  rewrite take_digits_app. destruct (Json.take_digits r) as [fd t']. simpl.
  destruct (String.eqb fd ""); reflexivity.
Qed.

Lemma scan_exp_sign_app (t : string) :
  Json.scan_exp_sign (t ++ u)
  = (fst (Json.scan_exp_sign t), snd (Json.scan_exp_sign t) ++ u).
Proof.
  unfold Json.scan_exp_sign. rewrite !head_is_app by reflexivity.
  destruct (Json.head_is "-" t), (Json.head_is "+" t); reflexivity.
Qed.

Lemma scan_exp_app (t : string) :
  Json.scan_exp (t ++ u) = (fst (Json.scan_exp t), snd (Json.scan_exp t) ++ u).
Proof.
  unfold Json.scan_exp. rewrite !head_is_app by reflexivity.
  destruct (Json.head_is "e" t) as [r|], (Json.head_is "E" t) as [r'|]; simpl;
    try reflexivity;
    rewrite scan_exp_sign_app;
    match goal with
    | |- context [Json.scan_exp_sign ?x] => destruct (Json.scan_exp_sign x) as [eneg t0]
    end; simpl; rewrite take_digits_app;
    match goal with
    | |- context [Json.take_digits ?x] => destruct (Json.take_digits x) as [ed t1]
    end; simpl; destruct (String.eqb ed ""); reflexivity.
Qed.

Lemma scan_number_app (t : string) :
  Json.scan_number (t ++ u)
  = option_map (fun p => (fst p, snd p ++ u)) (Json.scan_number t).
Proof.
  unfold Json.scan_number. rewrite scan_sign_app.
  destruct (Json.scan_sign t) as [neg s1]. simpl.
  destruct s1 as [|c s1].
  - simpl. reflexivity.
  - rewrite scan_int_app by discriminate.
    destruct (Json.scan_int (String c s1)) as [[ip s2]|]; simpl; [|reflexivity].
    rewrite scan_frac_app. destruct (Json.scan_frac s2) as [fp s3]. simpl.
    rewrite scan_exp_app. destruct (Json.scan_exp s3) as [ex s4]. reflexivity.
Qed.

Lemma strip_prefix_app (p t : string) :
  no_comma p = true ->
  Json.strip_prefix p (t ++ u) = option_map (fun r => r ++ u) (Json.strip_prefix p t).
Proof.
  revert t. induction p as [|a p IH]; intros t H; [reflexivity|].
  simpl in H. apply andb_prop in H. destruct H as [H1 H2].
  destruct t as [|b t]; simpl.
  - destruct (Ascii.eqb_spec a ","); [discriminate H1 | reflexivity].
  - destruct (Ascii.eqb a b); [apply IH, H2 | reflexivity].
Qed.

Lemma scan_constant_app (t : string) :
  Json.scan_constant (t ++ u)
  = option_map (fun p => (fst p, snd p ++ u)) (Json.scan_constant t).
Proof.
  unfold Json.scan_constant. rewrite !strip_prefix_app by reflexivity.
  destruct (Json.strip_prefix "null" t), (Json.strip_prefix "true" t),
    (Json.strip_prefix "false" t); reflexivity.
Qed.

Lemma scan_nonfinite_app (t : string) :
  Json.scan_nonfinite (t ++ u)
  = option_map (fun p => (fst p, snd p ++ u)) (Json.scan_nonfinite t).
Proof.
  unfold Json.scan_nonfinite. rewrite !strip_prefix_app by reflexivity.
  destruct (Json.strip_prefix "NaN" t), (Json.strip_prefix "Infinity" t),
    (Json.strip_prefix "-Infinity" t); reflexivity.
Qed.

Lemma scan_scalar_app (t : string) (v : value) (r : string) :
  Json.scan_scalar t = Decoded (v, r) ->
  Json.scan_scalar (t ++ u) = Decoded (v, r ++ u).
Proof.
  unfold Json.scan_scalar.
  rewrite scan_constant_app, scan_number_app, scan_nonfinite_app.
  destruct (Json.scan_constant t) as [[v1 r1]|]; simpl.
  { intros H; injection H as <- <-; reflexivity. }
  destruct (Json.scan_number t) as [[v2 r2]|]; simpl.
  { intros H; injection H as <- <-; reflexivity. }
  destruct (Json.scan_nonfinite t) as [[v3 r3]|]; simpl; [|discriminate].
  intros H; injection H as <- <-; reflexivity.
Qed.

Lemma skip_ws_app (t : string) (c : ascii) (r : string) :
  Json.skip_ws t = String c r -> Json.skip_ws (t ++ u) = String c (r ++ u).
Proof.
  induction t as [|x t IH]; simpl; [discriminate|].
  destruct (Json.is_ws x); [exact IH|].
  intros H; injection H as <- <-; reflexivity.
Qed.

Lemma skip_ws_blank_app (w : string) :
  Json.skip_ws w = "" -> Json.skip_ws (w ++ u) = u.
Proof.
  induction w as [|x w IH]; simpl; [reflexivity|].
  destruct (Json.is_ws x); [exact IH | discriminate].
Qed.

End BeforeComma.

(** ** A float that [json.loads] reads back from its own text *)

Lemma loads_float_inv (t : string) (x : float) :
  Json.loads t = Decoded (VFloat x) ->
  exists c r w,
    Json.skip_ws t = String c r
    /\ Json.head_is dquote (String c r) = None
    /\ Json.head_is "{" (String c r) = None
    /\ Json.head_is "[" (String c r) = None
    /\ Json.scan_scalar (String c r) = Decoded (VFloat x, w)
    /\ Json.skip_ws w = "".
Proof.
  unfold Json.loads. destruct (Json.skip_ws t) as [|c r] eqn:E; [discriminate|].
  cbn [Json.scan_once].
  destruct (Json.head_is dquote (String c r)) as [r0|] eqn:H1.
  { destruct (Json.scanstring r0) as [[x1 r1]| |]; simpl; try discriminate.
    destruct (Json.skip_ws r1); discriminate. }
  destruct (Json.head_is "{" (String c r)) as [r0|] eqn:H2.
  { cbv zeta. destruct (Json.head_is "}" (Json.skip_ws r0)) as [r'|].
    - simpl. destruct (Json.skip_ws r'); discriminate.
    - match goal with
      | |- context [Json.scan_pairs ?a ?b ?c] => destruct (Json.scan_pairs a b c) as [[ps r1]| |]
      end; simpl; try discriminate.
      destruct (Json.skip_ws r1); discriminate. }
  destruct (Json.head_is "[" (String c r)) as [r0|] eqn:H3.
  { cbv zeta. destruct (Json.head_is "]" (Json.skip_ws r0)) as [r'|].
    - simpl. destruct (Json.skip_ws r'); discriminate.
    - match goal with
      | |- context [Json.scan_items ?a ?b ?c] => destruct (Json.scan_items a b c) as [[ps r1]| |]
      end; simpl; try discriminate.
      destruct (Json.skip_ws r1); discriminate. }
  destruct (Json.scan_scalar (String c r)) as [[v w]| |] eqn:S; simpl; try discriminate.
  destruct (Json.skip_ws w) eqn:W; try discriminate.
  intros H; injection H as ->.
  exists c, r, w. repeat split; reflexivity || assumption.
Qed.

(** Inside a larger text, before a comma, the same float is read. *)
Lemma float_text_before_comma (t : string) (x : float) (f : nat) (rest : string) :
  Json.loads t = Decoded (VFloat x) ->
  exists w,
    Json.skip_ws w = ""
    /\ Json.scan_once (S f) (Json.skip_ws (t ++ String "," rest))
       = Decoded (VFloat x, w ++ String "," rest).
Proof.
  intros H. apply loads_float_inv in H.
  destruct H as [c [r [w [E [H1 [H2 [H3 [S W]]]]]]]].
  exists w. split; [exact W|].
  rewrite (skip_ws_app rest t c r E).
  change (String c (r ++ String "," rest)) with (String c r ++ String "," rest).
  cbn [Json.scan_once].
  rewrite !head_is_app by reflexivity. rewrite H1, H2, H3. cbn [option_map].
  apply scan_scalar_app, S.
Qed.

(** ** An object is read back *)

Lemma scan_pairs_more (scan : string -> decoded (value * string)) (n : nat)
  (k X t3 t4 : string) (v : value) :
  scan (Json.skip_ws X) = Decoded (v, t3) -> Json.skip_ws t3 = String "," t4 ->
  Json.scan_pairs scan (S n) (Json.encode_string k ++ String ":" X)
  = dbind (Json.scan_pairs scan n (Json.skip_ws t4))
          (fun pr => Decoded ((k, v) :: fst pr, snd pr)).
Proof.
  intros H W. rewrite encode_string_app. cbn [Json.scan_pairs].
  change (Json.head_is dquote (String dquote (Json.escape k ++ String dquote (String ":" X))))
    with (Some (Json.escape k ++ String dquote (String ":" X))).
  cbv iota. rewrite scanstring_escape. cbn [dbind snd fst].
  change (Json.head_is ":" (Json.skip_ws (String ":" X))) with (Some X).
  cbv iota. rewrite H. cbn [dbind snd fst]. cbv zeta. rewrite W. reflexivity.
Qed.

Lemma scan_pairs_end (scan : string -> decoded (value * string)) (n : nat)
  (k X t3 t4 : string) (v : value) :
  scan (Json.skip_ws X) = Decoded (v, t3) -> Json.skip_ws t3 = String "}" t4 ->
  Json.scan_pairs scan (S n) (Json.encode_string k ++ String ":" X)
  = Decoded ([(k, v)], t4).
Proof.
  intros H W. rewrite encode_string_app. cbn [Json.scan_pairs].
  change (Json.head_is dquote (String dquote (Json.escape k ++ String dquote (String ":" X))))
    with (Some (Json.escape k ++ String dquote (String ":" X))).
  cbv iota. rewrite scanstring_escape. cbn [dbind snd fst].
  change (Json.head_is ":" (Json.skip_ws (String ":" X))) with (Some X).
  cbv iota. rewrite H. cbn [dbind snd fst]. cbv zeta. rewrite W. reflexivity.
Qed.

Lemma to_json_text (b : AstronomicalBody.t) :
  AstronomicalBody.to_json b
  = String "{" (Json.encode_string "name" ++ String ":" (String " "
      (Json.encode_string (AstronomicalBody.name b) ++ String "," (String " "
        (Json.encode_string "radius" ++ String ":" (String " "
          (Json.encode_float (AstronomicalBody.radius b) ++ String "," (String " "
            (Json.encode_string "atmosphere_composition" ++ String ":" (String " "
              (Json.dumps (VList (map VStr (AstronomicalBody.atmosphere_composition b)))
                 ++ "}"))))))))))).
Proof.
  unfold AstronomicalBody.to_json, AstronomicalBody.dict.
  cbn [Json.dumps map join fst snd].
  rewrite !append_assoc. reflexivity.
Qed.


Lemma skip_ws_dumps_list (l : list value) (rest : string) :
  Json.skip_ws (Json.dumps (VList l) ++ rest) = Json.dumps (VList l) ++ rest.
Proof. reflexivity. Qed.

Lemma scan_once_object (f : nat) (body : string) :
  Json.head_is "}" (Json.skip_ws body) = None ->
  Json.scan_once (S f) (String "{" body)
  = dbind (Json.scan_pairs (Json.scan_once f) (S (String.length (Json.skip_ws body)))
             (Json.skip_ws body))
          (fun pr => Decoded (VDict (Dict.of_pairs (fst pr)), snd pr)).
Proof.
  intros H. cbn [Json.scan_once].
  change (Json.head_is dquote (String "{" body)) with (@None string).
  change (Json.head_is "{" (String "{" body)) with (Some body).
  cbv iota zeta. rewrite H. reflexivity.
Qed.

Lemma loads_to_json (b : AstronomicalBody.t) :
  float_reads_back (AstronomicalBody.radius b) ->
  Json.loads (AstronomicalBody.to_json b) = Decoded (VDict (AstronomicalBody.dict b)).
Proof.
  intros F. rewrite to_json_text. unfold Json.loads.
  destruct b as [n r a]. cbn [AstronomicalBody.name AstronomicalBody.radius
    AstronomicalBody.atmosphere_composition AstronomicalBody.dict] in *.
  match goal with
  | |- context [String "{" ?X] => set (body := X)
  end.
  change (Json.skip_ws (String "{" body)) with (String "{" body).
  assert (B : exists t, body = String dquote (String "n" t)).
  { subst body. rewrite encode_string_app. eexists. reflexivity. }
  destruct B as [t B].
  assert (W : Json.skip_ws body = body) by (rewrite B; reflexivity).
  rewrite scan_once_object by (rewrite B; reflexivity).
  rewrite W.
  assert (L : String.length body = S (S (String.length t))) by (rewrite B; reflexivity).
  cbn [String.length]. rewrite L. clear L W B.
  set (k := String.length t). clearbody k. clear t.
  subst body.
  (* name *)
  erewrite scan_pairs_more;
    [ | rewrite skip_ws_space, skip_ws_encode_string; apply scan_once_string
      | reflexivity ].
  rewrite skip_ws_space, skip_ws_encode_string.
  (* radius *)
  destruct (float_text_before_comma (Json.encode_float r) r (S (S k))
              (String " " (Json.encode_string "atmosphere_composition" ++ String ":"
                 (String " " (Json.dumps (VList (map VStr a)) ++ "}")))) F)
    as [w [Ww Sw]].
  erewrite scan_pairs_more;
    [ | rewrite skip_ws_space; exact Sw | apply skip_ws_blank_app, Ww ].
  rewrite skip_ws_space, skip_ws_encode_string.
  (* atmosphere_composition *)
  erewrite scan_pairs_end;
    [ | rewrite skip_ws_space, skip_ws_dumps_list; apply scan_once_string_list
      | reflexivity ].
  reflexivity.
Qed.

(** ** The digits of a number *)

Lemma sf_same_eq (a b : spec_float) : PyFloat.sf_same a b = true -> a = b.
Proof.
  destruct a as [s|s| |s m e], b as [s'|s'| |s' m' e']; simpl; try discriminate; try reflexivity.
  - intros H. apply Bool.eqb_prop in H. now subst.
  - intros H. apply Bool.eqb_prop in H. now subst.
  - intros H. apply andb_prop in H. destruct H as [H H3]. apply andb_prop in H.
    destruct H as [H1 H2]. apply Bool.eqb_prop in H1. apply Pos.eqb_eq in H2.
    apply Z.eqb_eq in H3. now subst.
Qed.

Lemma digit_char_is_digit (k : Z) : 0 <= k < 10 -> Json.is_digit (PyFloat.digit_char k) = true.
Proof.
  intros H. assert (E : k = 0 \/ k = 1 \/ k = 2 \/ k = 3 \/ k = 4 \/ k = 5 \/ k = 6 \/ k = 7 \/ k = 8 \/ k = 9) by lia.
  repeat (destruct E as [-> | E]; [reflexivity|]). subst. reflexivity.
Qed.

Lemma digit_char_value (k : Z) : 0 <= k < 10 ->
  Z.of_N (N_of_ascii (PyFloat.digit_char k)) - 48 = k.
Proof.
  intros H. assert (E : k = 0 \/ k = 1 \/ k = 2 \/ k = 3 \/ k = 4 \/ k = 5 \/ k = 6 \/ k = 7 \/ k = 8 \/ k = 9) by lia.
  repeat (destruct E as [-> | E]; [reflexivity|]). subst. reflexivity.
Qed.

Lemma digit_char_zero (k : Z) : 0 <= k < 10 ->
  Ascii.eqb (PyFloat.digit_char k) "0" = (k =? 0).
Proof.
  intros H. assert (E : k = 0 \/ k = 1 \/ k = 2 \/ k = 3 \/ k = 4 \/ k = 5 \/ k = 6 \/ k = 7 \/ k = 8 \/ k = 9) by lia.
  repeat (destruct E as [-> | E]; [reflexivity|]). subst. reflexivity.
Qed.

Lemma digits_acc_spec (fuel : nat) : forall n acc,
  0 <= n < 10 ^ Z.of_nat fuel -> (0 < fuel)%nat ->
  exists ds, PyFloat.digits_acc fuel n acc = ds ++ acc /\ decimal_of n ds.
Proof.
  induction fuel as [|f IH]; intros n acc Hn Hf; [lia|].
  cbn [PyFloat.digits_acc].
  assert (M : 0 <= n mod 10 < 10) by (apply Z.mod_pos_bound; lia).
  destruct (Z.ltb_spec n 10) as [L|L].
  - exists (String (PyFloat.digit_char (n mod 10)) ""). split; [reflexivity|].
    rewrite Z.mod_small by lia. split.
    + simpl. rewrite digit_char_is_digit by lia. reflexivity.
    + intros a r. cbn [append Json.digits_value_from String.length].
      rewrite digit_char_value by lia. f_equal. change (Z.of_nat 1) with 1. lia.
    + discriminate.
    + intros P. eexists _, _. split; [reflexivity|]. rewrite digit_char_zero by lia.
      apply Z.eqb_neq. lia.
    + intros P. cbn [String.length]. change (Z.of_nat 1) with 1. lia.
  - assert (Hq : 0 <= n / 10 < 10 ^ Z.of_nat f).
    { split; [apply Z.div_pos; lia|]. apply Z.div_lt_upper_bound; [lia|].
      rewrite Nat2Z.inj_succ, Z.pow_succ_r in Hn by lia. lia. }
    assert (Hf' : (0 < f)%nat).
    { destruct f; [|lia]. simpl in Hq. assert (n / 10 = 0) by lia.
      apply Z.div_small_iff in H; lia. }
    destruct (IH (n / 10) (String (PyFloat.digit_char (n mod 10)) acc) Hq Hf') as [ds [E D]].
    exists (ds ++ String (PyFloat.digit_char (n mod 10)) ""). split.
    { rewrite E, append_assoc. reflexivity. }
    destruct D as [D1 D2 D3 D4 D5].
    assert (Len : String.length (ds ++ String (PyFloat.digit_char (n mod 10)) "")
                  = S (String.length ds)).
    { clear. induction ds; simpl; [reflexivity | now rewrite IHds]. }
    assert (Q : 0 < n / 10) by (apply Z.div_str_pos; lia).
    split.
    + clear - D1 M. induction ds as [|c ds IHd]; simpl in *.
      * rewrite digit_char_is_digit by lia. reflexivity.
      * apply andb_prop in D1. destruct D1 as [A B]. rewrite A. simpl. now apply IHd.
    + intros a r. rewrite append_assoc, D2. cbn [append Json.digits_value_from].
      rewrite digit_char_value by lia.
      f_equal. rewrite Len, Nat2Z.inj_succ, Z.pow_succ_r by lia.
      pose proof (Z.div_mod n 10). lia.
    + destruct ds; discriminate.
    + intros _. destruct (D4 Q) as [c [t [-> Hc]]]. eexists _, _. split; [reflexivity | exact Hc].
    + intros _. rewrite Len, Nat2Z.inj_succ. specialize (D5 Q).
      replace (Z.succ (Z.of_nat (String.length ds)) - 1) with (Z.succ (Z.of_nat (String.length ds) - 1)) by lia.
      assert (1 <= Z.of_nat (String.length ds)) by (destruct ds; [contradiction | simpl; lia]).
      rewrite !Z.pow_succ_r by lia.
      pose proof (Z.div_mod n 10). lia.
Qed.

Lemma append_nil (s : string) : s ++ "" = s.
Proof. induction s; simpl; [reflexivity | now rewrite IHs]. Qed.

Lemma digits_of_spec (n : Z) : 0 <= n -> decimal_of n (PyFloat.digits_of n).
Proof.
  intros H. unfold PyFloat.digits_of.
  destruct (digits_acc_spec (S (Z.to_nat (Z.log2 n))) n "") as [ds [E D]]; [|lia|].
  - split; [exact H|].
    rewrite Nat2Z.inj_succ, Z2Nat.id by apply Z.log2_nonneg.
    destruct (Z.eq_dec n 0) as [->|N]; [reflexivity|].
    pose proof (Z.log2_spec n ltac:(lia)) as [_ L].
    eapply Z.lt_le_trans; [exact L|].
    apply Z.pow_le_mono_l. pose proof (Z.log2_nonneg n). lia.
  - rewrite E, append_nil. exact D.
Qed.

Lemma dv_app (s r : string) (a : Z) :
  Json.digits_value_from a (s ++ r) = Json.digits_value_from (Json.digits_value_from a s) r.
Proof. revert a. induction s as [|c s IH]; intros a; simpl; [reflexivity | apply IH]. Qed.

Lemma dv_linear (s : string) (a : Z) :
  Json.digits_value_from a s = a * 10 ^ Z.of_nat (String.length s) + Json.digits_value s.
Proof.
  unfold Json.digits_value. revert a. induction s as [|c s IH]; intros a.
  - simpl. lia.
  - cbn [Json.digits_value_from String.length]. rewrite IH, (IH (10 * 0 + _)).
    rewrite Nat2Z.inj_succ, Z.pow_succ_r by lia. ring.
Qed.

Lemma length_append (s r : string) :
  String.length (s ++ r) = (String.length s + String.length r)%nat.
Proof. induction s; simpl; [reflexivity | now rewrite IHs]. Qed.

Lemma dv_append (s r : string) :
  Json.digits_value (s ++ r)
  = Json.digits_value s * 10 ^ Z.of_nat (String.length r) + Json.digits_value r.
Proof.
  unfold Json.digits_value at 1. rewrite dv_app, dv_linear. reflexivity.
Qed.

Lemma zeros_length (k : nat) : String.length (PyFloat.zeros k) = k.
Proof. induction k; simpl; [reflexivity | now rewrite IHk]. Qed.

Lemma dv_zeros (k : nat) : Json.digits_value (PyFloat.zeros k) = 0.
Proof.
  unfold Json.digits_value. induction k; [reflexivity|].
  cbn [PyFloat.zeros Json.digits_value_from]. exact IHk.
Qed.

Lemma all_digits_zeros (k : nat) : all_digits (PyFloat.zeros k) = true.
Proof. induction k; [reflexivity | exact IHk]. Qed.

Lemma all_digits_app (s r : string) :
  all_digits (s ++ r) = all_digits s && all_digits r.
Proof. induction s; simpl; [reflexivity | now rewrite IHs, andb_assoc]. Qed.

Lemma decimal_value (n : Z) (ds : string) : decimal_of n ds -> Json.digits_value ds = n.
Proof.
  intros [_ V _ _ _]. specialize (V 0 ""). rewrite append_nil in V.
  unfold Json.digits_value. rewrite V. reflexivity.
Qed.

Lemma take_digits_stop (ds r : string) :
  all_digits ds = true -> stops r -> Json.take_digits (ds ++ r) = (ds, r).
Proof.
  intros A S. induction ds as [|c ds IH]; simpl in *.
  - destruct r as [|x r]; [reflexivity|]. simpl in S. simpl. now rewrite S.
  - apply andb_prop in A. destruct A as [A1 A2]. rewrite A1, (IH A2). reflexivity.
Qed.

Lemma strip_zeros_spec (s : string) :
  exists k, s = PyFloat.strip_zeros s ++ PyFloat.zeros k.
Proof.
  induction s as [|c s [k IH]].
  - exists 0%nat. reflexivity.
  - cbn [PyFloat.strip_zeros]. destruct (PyFloat.strip_zeros s) as [|c' r'] eqn:E.
    + destruct (Ascii.eqb_spec c "0") as [->|N].
      * exists (S k). simpl in IH. rewrite IH. reflexivity.
      * exists k. simpl in *. now rewrite <- IH.
    + exists k. simpl in *. now rewrite <- IH.
Qed.

Lemma strip_zeros_head (c : ascii) (t : string) :
  Ascii.eqb c "0" = false ->
  exists t', PyFloat.strip_zeros (String c t) = String c t'.
Proof.
  intros H. cbn [PyFloat.strip_zeros]. destruct (PyFloat.strip_zeros t).
  - rewrite H. eexists; reflexivity.
  - eexists; reflexivity.
Qed.

(** ** A decimal literal is scanned whole *)

Lemma digit_head_is (d c : ascii) (t : string) :
  Json.is_digit d = true -> Json.is_digit c = false -> Json.head_is c (String d t) = None.
Proof.
  intros D C. unfold Json.head_is. destruct (Ascii.eqb_spec d c) as [->|N]; [congruence | reflexivity].
Qed.

Lemma stops_exp_text (ex : option (bool * string)) : stops (exp_text ex).
Proof. destruct ex as [[[] ed]|]; simpl; reflexivity || exact I. Qed.

Lemma eqb_nonempty (s : string) : s <> "" -> String.eqb s "" = false.
Proof. destruct s; [contradiction | reflexivity]. Qed.

Lemma scan_exp_text (ex : option (bool * string)) :
  exp_ok ex ->
  Json.scan_exp (exp_text ex)
  = (match ex with Some _ => Some (exp_value ex) | None => None end, "").
Proof.
  destruct ex as [[neg ed]|]; simpl; [|reflexivity].
  intros [A N]. unfold Json.scan_exp. cbn [exp_text Json.head_is].
  change (Ascii.eqb "e" "e") with true. cbv iota.
  assert (T : Json.take_digits ed = (ed, "")).
  { rewrite <- (append_nil ed) at 1. apply take_digits_stop; [exact A | exact I]. }
  destruct neg; unfold Json.scan_exp_sign; cbn [Json.head_is].
  - change (Ascii.eqb "-" "-") with true. cbv iota. rewrite T, eqb_nonempty by exact N.
    reflexivity.
  - change (Ascii.eqb "+" "-") with false. change (Ascii.eqb "+" "+") with true. cbv iota.
    rewrite T, eqb_nonempty by exact N. reflexivity.
Qed.

Lemma scan_frac_text (fp : string) (ex : option (bool * string)) :
  all_digits fp = true ->
  Json.scan_frac (frac_text fp ++ exp_text ex) = (fp, exp_text ex).
Proof.
  intros A. destruct fp as [|c fp].
  - simpl. destruct ex as [[[] ed]|]; reflexivity.
  - unfold Json.scan_frac. cbn [frac_text append Json.head_is].
    change (Ascii.eqb "." ".") with true. cbv iota.
    change (String c (fp ++ exp_text ex)) with (String c fp ++ exp_text ex).
    rewrite take_digits_stop by (exact A || apply stops_exp_text). reflexivity.
Qed.

Lemma stops_frac_exp (fp : string) (ex : option (bool * string)) :
  stops (frac_text fp ++ exp_text ex).
Proof.
  destruct fp; [apply stops_exp_text | reflexivity].
Qed.

Lemma scan_int_text (ip rest : string) :
  all_digits ip = true -> stops rest ->
  ip = "0" \/ (exists c t, ip = String c t /\ Ascii.eqb c "0" = false) ->
  Json.scan_int (ip ++ rest) = Some (ip, rest).
Proof.
  intros A S [->|[c [t [-> Hc]]]].
  - reflexivity.
  - unfold Json.scan_int. cbn [append].
    pose proof A as A'. simpl in A'. apply andb_prop in A'. destruct A' as [A1 _].
    rewrite A1, Hc.
    change (String c (t ++ rest)) with (String c t ++ rest).
    now rewrite take_digits_stop.
Qed.

Lemma scan_sign_digit (d : ascii) (t : string) :
  Json.is_digit d = true -> Json.scan_sign (String d t) = (false, String d t).
Proof.
  intros D. unfold Json.scan_sign. rewrite digit_head_is by (exact D || reflexivity).
  reflexivity.
Qed.

Lemma scan_literal (ip fp : string) (ex : option (bool * string)) :
  all_digits ip = true ->
  ip = "0" \/ (exists c t, ip = String c t /\ Ascii.eqb c "0" = false) ->
  all_digits fp = true -> exp_ok ex ->
  fp <> "" \/ ex <> None ->
  Json.scan_number (ip ++ frac_text fp ++ exp_text ex)
  = Some (VFloat (PyFloat.of_decimal false (Json.digits_value (ip ++ fp))
                    (exp_value ex - Z.of_nat (String.length fp))), "").
Proof.
  intros A H F X N. unfold Json.scan_number.
  assert (Hd : exists d t, ip = String d t /\ Json.is_digit d = true).
  { destruct H as [->|[c [t [-> _]]]]; eexists _, _; (split; [reflexivity|]);
      [reflexivity|]. simpl in A. apply andb_prop in A. tauto. }
  destruct Hd as [d [t [E D]]].
  assert (S0 : Json.scan_sign (ip ++ frac_text fp ++ exp_text ex)
               = (false, ip ++ frac_text fp ++ exp_text ex)).
  { rewrite E. cbn [append]. apply scan_sign_digit, D. }
  rewrite S0, (scan_int_text ip _ A (stops_frac_exp fp ex) H).
  rewrite (scan_frac_text fp ex F), (scan_exp_text ex X).
  unfold Json.number_value.
  destruct fp as [|c fp]; [|destruct ex as [[neg ed]|]; reflexivity].
  destruct ex as [[neg ed]|]; [reflexivity|].
  destruct N as [N|N]; contradiction.
Qed.

(** ** The layouts of [repr] are decimal literals *)

Lemma substring_prefix (a b : string) : substring 0 (String.length a) (a ++ b) = a.
Proof.
  induction a as [|c a IH]; simpl.
  - destruct b; reflexivity.
  - now rewrite IH.
Qed.

Lemma substring_all (b : string) : substring 0 (String.length b) b = b.
Proof. induction b as [|c b IH]; simpl; [reflexivity | now rewrite IH]. Qed.

Lemma substring_suffix (a b : string) :
  substring (String.length a) (String.length b) (a ++ b) = b.
Proof.
  induction a as [|c a IH]; simpl; [apply substring_all | exact IH].
Qed.

Lemma split_at (k : nat) : forall ds, (k <= String.length ds)%nat ->
  exists a b, ds = a ++ b /\ String.length a = k.
Proof.
  induction k as [|k IH]; intros ds H.
  - exists "", ds. split; reflexivity.
  - destruct ds as [|c ds]; [simpl in H; lia|].
    destruct (IH ds ltac:(simpl in H; lia)) as [a [b [-> L]]].
    exists (String c a), b. split; [reflexivity | simpl; now rewrite L].
Qed.

Lemma two_digits_spec (n : Z) : 0 <= n ->
  all_digits (PyFloat.two_digits n) = true /\ PyFloat.two_digits n <> ""
  /\ Json.digits_value (PyFloat.two_digits n) = n.
Proof.
  intros H. pose proof (digits_of_spec n H) as D.
  pose proof (decimal_value _ _ D) as V. destruct D as [D1 _ D3 _ _].
  unfold PyFloat.two_digits. destruct (n <? 10).
  - split; [exact D1|]. split; [discriminate|].
    change ("0" ++ PyFloat.digits_of n) with (String "0" (PyFloat.digits_of n)).
    unfold Json.digits_value. cbn [Json.digits_value_from]. exact V.
  - tauto.
Qed.

Lemma layout_literal (ds : string) (pt : Z) :
  significant ds ->
  exists ip fp ex j,
    PyFloat.layout ds pt = ip ++ frac_text fp ++ exp_text ex
    /\ all_digits ip = true
    /\ (ip = "0" \/ (exists c t, ip = String c t /\ Ascii.eqb c "0" = false))
    /\ all_digits fp = true /\ exp_ok ex
    /\ (fp <> "" \/ ex <> None)
    /\ 0 <= j
    /\ Json.digits_value (ip ++ fp) = Json.digits_value ds * 10 ^ j
    /\ exp_value ex - Z.of_nat (String.length fp)
       = pt - Z.of_nat (String.length ds) - j.
Proof.
  intros [A [c [t [E Hc]]]]. unfold PyFloat.layout.
  destruct ((pt <=? -4) || (16 <? pt)) eqn:B1.
  - (* exponent notation *)
    destruct (two_digits_spec (Z.abs (pt - 1)) (Z.abs_nonneg _)) as [T1 [T2 T3]].
    exists (String c ""), t, (Some (pt - 1 <? 0, PyFloat.two_digits (Z.abs (pt - 1)))), 0.
    subst ds. simpl in A. apply andb_prop in A. destruct A as [A1 A2].
    split.
    { cbn [exp_text]. destruct t; destruct (pt - 1 <? 0); reflexivity. }
    split; [simpl; now rewrite A1|].
    split; [right; eexists _, _; split; [reflexivity | exact Hc]|].
    split; [exact A2|]. split; [split; assumption|].
    split; [right; discriminate|]. split; [lia|].
    split; [cbn [append]; rewrite Z.pow_0_r; lia|].
    cbn [exp_value String.length]. rewrite T3.
    destruct (Z.ltb_spec (pt - 1) 0); lia.
  - destruct (Z.leb_spec pt 0) as [B2|B2].
    + (* 0.000ddd *)
      exists "0", (PyFloat.zeros (Z.to_nat (- pt)) ++ ds), None, 0.
      split.
      { cbn [exp_text]. rewrite append_nil.
        destruct (PyFloat.zeros (Z.to_nat (- pt)) ++ ds) eqn:Q; [|reflexivity].
        subst ds. destruct (PyFloat.zeros (Z.to_nat (- pt))); discriminate Q. }
      split; [reflexivity|]. split; [left; reflexivity|].
      split; [rewrite all_digits_app, all_digits_zeros; exact A|].
      split; [exact I|].
      split; [left; subst ds; destruct (PyFloat.zeros (Z.to_nat (- pt))); discriminate|].
      split; [lia|].
      split.
      { change ("0" ++ PyFloat.zeros (Z.to_nat (- pt)) ++ ds)
          with (String "0" (PyFloat.zeros (Z.to_nat (- pt)) ++ ds)).
        unfold Json.digits_value at 1. cbn [Json.digits_value_from].
        change (Json.digits_value_from (10 * 0 + (Z.of_N (N_of_ascii "0") - 48)))
          with (Json.digits_value_from 0).
        change (Json.digits_value_from 0 (PyFloat.zeros (Z.to_nat (- pt)) ++ ds))
          with (Json.digits_value (PyFloat.zeros (Z.to_nat (- pt)) ++ ds)).
        rewrite dv_append, dv_zeros, Z.pow_0_r. lia. }
      cbn [exp_value]. rewrite length_append, zeros_length. lia.
    + destruct (Z.leb_spec (Z.of_nat (String.length ds)) pt) as [B3|B3].
      * (* ddd000.0 *)
        exists (ds ++ PyFloat.zeros (Z.to_nat (pt - Z.of_nat (String.length ds)))), "0", None,
          (pt - Z.of_nat (String.length ds) + 1).
        split; [cbn [frac_text exp_text]; rewrite append_assoc; reflexivity|].
        split; [rewrite all_digits_app, all_digits_zeros, A; reflexivity|].
        split; [right; subst ds; eexists _, _; split; [reflexivity | exact Hc]|].
        split; [reflexivity|]. split; [exact I|]. split; [left; discriminate|].
        split; [lia|].
        split.
        { rewrite !dv_append, dv_zeros, zeros_length.
          change (Json.digits_value "0") with 0. cbn [String.length].
          change (Z.of_nat 1) with 1. rewrite Z2Nat.id by lia.
          rewrite (Z.pow_add_r 10 _ 1) by lia. lia. }
        cbn [exp_value String.length]. lia.
      * (* dd.ddd *)
        destruct (split_at (Z.to_nat pt) ds ltac:(lia)) as [a [b [S L]]].
        exists a, b, None, 0.
        assert (Lb : String.length b = Z.to_nat (Z.of_nat (String.length ds) - pt)).
        { rewrite S, length_append, L. lia. }
        assert (Nb : b <> "").
        { intros ->. simpl in Lb. lia. }
        split.
        { cbn [exp_text]. rewrite append_nil.
          assert (P1 : substring 0 (Z.to_nat pt) ds = a).
          { rewrite <- L, S. apply substring_prefix. }
          assert (P2 : substring (Z.to_nat pt) (Z.to_nat (Z.of_nat (String.length ds) - pt)) ds
                       = b).
          { rewrite <- Lb, <- L, S. apply substring_suffix. }
          rewrite P1, P2. destruct b; [contradiction | reflexivity]. }
        rewrite S, all_digits_app in A. apply andb_prop in A. destruct A as [Aa Ab].
        split; [exact Aa|].
        split.
        { right. destruct a as [|x a]; [simpl in L; lia|].
          rewrite E in S. simpl in S. injection S as -> _.
          eexists _, _; split; [reflexivity | exact Hc]. }
        split; [exact Ab|]. split; [exact I|]. split; [left; exact Nb|].
        split; [lia|].
        split; [rewrite <- S, Z.pow_0_r; lia|].
        cbn [exp_value]. rewrite Lb. lia.
Qed.

(** ** Equal fractions round to the same float *)

Lemma reduce_unique (n d n' d' : Z) :
  0 < n -> 0 < d -> 0 < n' -> 0 < d' -> n * d' = n' * d ->
  PyFloat.reduce n d = PyFloat.reduce n' d'.
Proof.
  intros Hn Hd Hn' Hd' H. unfold PyFloat.reduce.
  set (g := Z.gcd n d). set (g' := Z.gcd n' d').
  assert (Hg : 0 < g) by (subst g; pose proof (Z.gcd_nonneg n d);
    destruct (Z.eq_dec (Z.gcd n d) 0) as [E|E]; [apply Z.gcd_eq_0_l in E; lia | lia]).
  assert (Hg' : 0 < g') by (subst g'; pose proof (Z.gcd_nonneg n' d');
    destruct (Z.eq_dec (Z.gcd n' d') 0) as [E|E]; [apply Z.gcd_eq_0_l in E; lia | lia]).
  destruct (Z.gcd_divide_l n d) as [a Ha]. fold g in Ha.
  destruct (Z.gcd_divide_r n d) as [b Hb]. fold g in Hb.
  destruct (Z.gcd_divide_l n' d') as [a' Ha']. fold g' in Ha'.
  destruct (Z.gcd_divide_r n' d') as [b' Hb']. fold g' in Hb'.
  assert (Ea : n / g = a) by (rewrite Ha; apply Z.div_mul; lia).
  assert (Eb : d / g = b) by (rewrite Hb; apply Z.div_mul; lia).
  assert (Ea' : n' / g' = a') by (rewrite Ha'; apply Z.div_mul; lia).
  assert (Eb' : d' / g' = b') by (rewrite Hb'; apply Z.div_mul; lia).
  assert (C : Z.gcd a b = 1).
  { rewrite <- Ea, <- Eb. apply Z.gcd_div_gcd; [lia | reflexivity]. }
  assert (C' : Z.gcd a' b' = 1).
  { rewrite <- Ea', <- Eb'. apply Z.gcd_div_gcd; [lia | reflexivity]. }
  assert (Pa : 0 < a) by nia. assert (Pb : 0 < b) by nia.
  assert (Pa' : 0 < a') by nia. assert (Pb' : 0 < b') by nia.
  assert (X : a * b' = a' * b).
  { apply (Z.mul_cancel_l _ _ (g * g')); [nia|].
    rewrite Ha, Hb, Ha', Hb' in H. lia. }
  assert (D1 : (a | a')).
  { apply Z.gauss with (m := b); [|exact C]. exists b'. lia. }
  assert (D2 : (a' | a)).
  { apply Z.gauss with (m := b'); [|exact C']. exists b. lia. }
  assert (Eq : a = a') by (apply Z.divide_antisym_nonneg; lia || assumption).
  assert (Eb2 : b = b') by nia.
  rewrite Ea, Eb, Ea', Eb', Eq, Eb2. reflexivity.
Qed.

Lemma pow10_pos (k : Z) : 0 <= k -> 0 < 10 ^ k.
Proof. intros. apply Z.pow_pos_nonneg; lia. Qed.

Lemma decimal_ratio_pos (m e : Z) : 0 < m ->
  0 < fst (PyFloat.decimal_ratio m e) /\ 0 < snd (PyFloat.decimal_ratio m e).
Proof.
  intros H. unfold PyFloat.decimal_ratio. destruct (Z.leb_spec 0 e); simpl.
  - pose proof (pow10_pos e). split; [nia | lia].
  - pose proof (pow10_pos (- e)). split; lia.
Qed.

Lemma round_decimal_scale (neg : bool) (m e j : Z) :
  0 < m -> 0 <= j ->
  PyFloat.round_decimal neg (m * 10 ^ j) (e - j) = PyFloat.round_decimal neg m e.
Proof.
  intros Hm Hj. unfold PyFloat.round_decimal.
  pose proof (pow10_pos j Hj) as Pj.
  destruct (Z.eqb_spec (m * 10 ^ j) 0) as [Z0|_]; [nia|].
  destruct (Z.eqb_spec m 0) as [Z0|_]; [lia|].
  pose proof (decimal_ratio_pos (m * 10 ^ j) (e - j) ltac:(nia)) as [P1 P2].
  pose proof (decimal_ratio_pos m e Hm) as [P3 P4].
  assert (X : fst (PyFloat.decimal_ratio (m * 10 ^ j) (e - j)) * snd (PyFloat.decimal_ratio m e)
              = fst (PyFloat.decimal_ratio m e) * snd (PyFloat.decimal_ratio (m * 10 ^ j) (e - j))).
  { unfold PyFloat.decimal_ratio.
    destruct (Z.leb_spec 0 (e - j)), (Z.leb_spec 0 e); cbn [fst snd]; try lia.
    - replace e with (j + (e - j)) at 2 by lia. rewrite Z.pow_add_r by lia. ring.
    - replace (- (e - j)) with (j + - e) by lia.
      replace j with (e + (j - e)) at 1 by lia.
      replace (j + - e) with (j - e) by lia.
      rewrite (Z.pow_add_r 10 e (j - e)) by lia. ring.
    - replace (- (e - j)) with (j + - e) by lia. rewrite Z.pow_add_r by lia. ring. }
  destruct (PyFloat.decimal_ratio (m * 10 ^ j) (e - j)) as [n1 d1].
  destruct (PyFloat.decimal_ratio m e) as [n2 d2]. cbn [fst snd] in *.
  now rewrite (reduce_unique n1 d1 n2 d2).
Qed.

(** ** Positive finite floats *)

Lemma gt0_cases (x : float) : PyFloat.gt0 x = true ->
  (exists m e, Prim2SF x = S754_finite false m e) \/ Prim2SF x = S754_infinity false.
Proof.
  unfold PyFloat.gt0. rewrite ltb_spec, Prim2SF_zero. unfold SFltb, SFcompare.
  destruct (Prim2SF x) as [[] | [] | | [] m e]; simpl; try discriminate.
  - right; reflexivity.
  - left; eauto.
Qed.

Lemma SFeqb_refl_finite (s : bool) (m : positive) (e : Z) :
  SFeqb (S754_finite s m e) (S754_finite s m e) = true.
Proof.
  unfold SFeqb, SFcompare. destruct s; rewrite Z.compare_refl.
  - change (Pos.compare_cont Eq m m) with (Pos.compare m m). now rewrite Pos.compare_refl.
  - change (Pos.compare_cont Eq m m) with (Pos.compare m m). now rewrite Pos.compare_refl.
Qed.

Lemma finite_classes (x : float) (m : positive) (e : Z) :
  Prim2SF x = S754_finite false m e ->
  is_nan x = false /\ is_infinity x = false /\ is_zero x = false /\ get_sign x = false.
Proof.
  intros H.
  assert (Z0 : is_zero x = false).
  { unfold is_zero. rewrite eqb_spec, H. reflexivity. }
  repeat split.
  - unfold is_nan. rewrite eqb_spec, H, SFeqb_refl_finite. reflexivity.
  - unfold is_infinity. rewrite eqb_spec, abs_spec, H. reflexivity.
  - exact Z0.
  - unfold get_sign. rewrite Z0, ltb_spec, H. reflexivity.
Qed.

Lemma infinity_reads_back (x : float) :
  Prim2SF x = S754_infinity false -> float_reads_back x.
Proof.
  intros H. assert (E : x = infinity).
  { rewrite <- (SF2Prim_Prim2SF x), H. reflexivity. }
  subst x. vm_compute. reflexivity.
Qed.

(** ** What the search returns reads back *)

Lemma candidate_back (X : spec_float) (n d pt p c : Z) :
  0 <= n -> 0 < d -> PyFloat.candidate X n d pt p = Some c ->
  0 <= c /\ PyFloat.sf_same (PyFloat.round_decimal false c (- (p - pt))) X = true.
Proof.
  intros Hn Hd. unfold PyFloat.candidate.
  set (num := if 0 <=? p - pt then n * 10 ^ (p - pt) else n).
  set (den := if 0 <=? p - pt then d else d * 10 ^ (- (p - pt))).
  assert (Pn : 0 <= num).
  { subst num. destruct (Z.leb_spec 0 (p - pt)); [|lia].
    pose proof (pow10_pos (p - pt)). nia. }
  assert (Pd : 0 < den).
  { subst den. destruct (Z.leb_spec 0 (p - pt)); [lia|].
    pose proof (pow10_pos (- (p - pt))). nia. }
  assert (Q : 0 <= num / den) by (apply Z.div_pos; lia).
  destruct (num mod den =? 0).
  - destruct (PyFloat.sf_same _ X) eqn:B; [|discriminate].
    intros E; injection E as <-. split; [exact Q | exact B].
  - destruct (PyFloat.sf_same (PyFloat.round_decimal false (num / den) _) X) eqn:B1,
             (PyFloat.sf_same (PyFloat.round_decimal false (num / den + 1) _) X) eqn:B2;
      try discriminate; intros E; injection E as <-.
    + match goal with
      | |- context [if ?b then _ else _] => destruct b
      end; (split; [lia | assumption]).
    + split; [lia | assumption].
    + split; [lia | assumption].
Qed.

Lemma shortest_candidate (fuel : nat) (X : spec_float) (n d pt : Z) :
  forall p0 c p, PyFloat.shortest fuel X n d pt p0 = Some (c, p) ->
                 PyFloat.candidate X n d pt p = Some c.
Proof.
  induction fuel as [|f IH]; intros p0 c p; simpl; [discriminate|].
  destruct (PyFloat.candidate X n d pt p0) as [c0|] eqn:E.
  - intros H; injection H as <- <-. exact E.
  - apply IH.
Qed.

Lemma scaled_pos (n d e : Z) : 0 < n -> 0 < d ->
  0 < fst (PyFloat.scaled n d e) /\ 0 < snd (PyFloat.scaled n d e).
Proof.
  intros Hn Hd. unfold PyFloat.scaled. destruct (Z.ltb_spec e 0); cbn [fst snd].
  - assert (0 < 2 ^ (- e)) by (apply Z.pow_pos_nonneg; lia). split; nia.
  - assert (0 < 2 ^ e) by (apply Z.pow_pos_nonneg; lia). split; nia.
Qed.

(** The digits that [repr] found denote a decimal that rounds to [x]. *)
Lemma shortest_digits_back (x : float) (m : positive) (e : Z) (ds : string) (pt : Z) :
  Prim2SF x = S754_finite false m e ->
  PyFloat.shortest_digits x = Some (ds, pt) ->
  significant ds
  /\ PyFloat.round_decimal false (Json.digits_value ds) (pt - Z.of_nat (String.length ds))
     = Prim2SF x.
Proof.
  intros H. unfold PyFloat.shortest_digits, PyFloat.magnitude. rewrite H.
  pose proof (scaled_pos (Zpos m) 1 (- e) ltac:(lia) ltac:(lia)) as [Pn Pd].
  destruct (PyFloat.scaled (Z.pos m) 1 (- e)) as [n d]. cbn [fst snd] in Pn, Pd.
  cbn [PyFloat.abs_sf].
  destruct (PyFloat.shortest 17 (S754_finite false m e) n d (PyFloat.decpt n d) 1)
    as [[c p]|] eqn:S; [|discriminate].
  intros E; injection E as <- <-.
  apply shortest_candidate in S.
  apply candidate_back in S; [|lia|lia]. destruct S as [C0 B].
  apply sf_same_eq in B.
  assert (Cp : 0 < c).
  { destruct (Z.eq_dec c 0) as [->|]; [|lia]. discriminate B. }
  pose proof (digits_of_spec c C0) as D.
  pose proof (decimal_value _ _ D) as V.
  destruct D as [D1 _ _ D4 _]. destruct (D4 Cp) as [h [t [F Hh]]].
  destruct (strip_zeros_spec (PyFloat.digits_of c)) as [k K].
  destruct (strip_zeros_head h t Hh) as [t' T]. rewrite <- F in T.
  set (full := PyFloat.digits_of c) in *. set (sd := PyFloat.strip_zeros full) in *.
  assert (A : all_digits sd = true).
  { rewrite K, all_digits_app in D1. apply andb_prop in D1. tauto. }
  split.
  { split; [exact A|]. eexists _, _. split; [exact T | exact Hh]. }
  assert (Vs : c = Json.digits_value sd * 10 ^ Z.of_nat k).
  { rewrite <- V, K, dv_append, dv_zeros, zeros_length. lia. }
  assert (Ls : String.length full = (String.length sd + k)%nat).
  { rewrite K at 1. now rewrite length_append, zeros_length. }
  assert (Ps : 0 < Json.digits_value sd).
  { assert (0 < 10 ^ Z.of_nat k) by (apply pow10_pos; lia). nia. }
  rewrite <- B, Vs.
  replace (- (p - PyFloat.decpt n d))
    with (PyFloat.decpt n d + (Z.of_nat (String.length full) - p)
          - Z.of_nat (String.length sd) - Z.of_nat k) by lia.
  symmetry. apply round_decimal_scale; lia.
Qed.

(** ** A number text is loaded as the number *)

Lemma strip_prefix_digit (a : ascii) (p : string) (d : ascii) (t : string) :
  Json.is_digit d = true -> Json.is_digit a = false ->
  Json.strip_prefix (String a p) (String d t) = None.
Proof.
  intros D A. simpl. destruct (Ascii.eqb_spec a d) as [->|]; [congruence | reflexivity].
Qed.

Lemma digit_not_ws (d : ascii) : Json.is_digit d = true -> Json.is_ws d = false.
Proof.
  unfold Json.is_digit, Json.is_ws. intros H.
  apply andb_prop in H. destruct H as [H1 H2].
  apply N.leb_le in H1. apply N.leb_le in H2.
  repeat rewrite orb_false_iff. repeat split; apply N.eqb_neq; lia.
Qed.

Lemma loads_number (d : ascii) (t : string) (v : value) :
  Json.is_digit d = true -> Json.scan_number (String d t) = Some (v, "") ->
  Json.loads (String d t) = Decoded v.
Proof.
  intros D S. unfold Json.loads.
  assert (W : Json.skip_ws (String d t) = String d t).
  { simpl. now rewrite (digit_not_ws d D). }
  rewrite W. cbn [Json.scan_once].
  rewrite !digit_head_is by (exact D || reflexivity).
  unfold Json.scan_scalar, Json.scan_constant.
  rewrite !strip_prefix_digit by (exact D || reflexivity).
  rewrite S. reflexivity.
Qed.

Lemma repr_reads_back (x : float) (m : positive) (e : Z) (ds : string) (pt : Z) :
  Prim2SF x = S754_finite false m e ->
  PyFloat.shortest_digits x = Some (ds, pt) ->
  float_reads_back x.
Proof.
  intros H S. unfold float_reads_back. cbn [Json.dumps].
  destruct (finite_classes x m e H) as [C1 [C2 [C3 C4]]].
  unfold Json.encode_float, PyFloat.repr. rewrite C1, C2, C3, S, C4.
  change ("" ++ PyFloat.layout ds pt) with (PyFloat.layout ds pt).
  destruct (shortest_digits_back x m e ds pt H S) as [Sg R].
  pose proof Sg as [_ [h [t0 [Eds Hh]]]].
  assert (Pds : 0 < Json.digits_value ds).
  { destruct (Z.lt_trichotomy (Json.digits_value ds) 0) as [L|[L|L]]; [| |exact L].
    - exfalso. clear - L Sg. destruct Sg as [A _].
      assert (G : forall s a, 0 <= a -> all_digits s = true -> 0 <= Json.digits_value_from a s).
      { induction s as [|c s IH]; intros a Ha As;
          cbn [all_digits Json.digits_value_from] in *; [exact Ha|].
        apply andb_prop in As. destruct As as [A1 A2]. apply IH; [|exact A2].
        unfold Json.is_digit in A1. cbv zeta in A1.
        apply andb_prop in A1. destruct A1 as [A1 _].
        apply N.leb_le in A1. lia. }
      pose proof (G ds 0 ltac:(lia) A). unfold Json.digits_value in L. lia.
    - exfalso. rewrite L in R. unfold PyFloat.round_decimal in R. simpl in R.
      rewrite H in R. discriminate R. }
  destruct (layout_literal ds pt Sg) as [ip [fp [ex [j [L [A1 [A2 [A3 [A4 [A5 [A6 [A7 A8]]]]]]]]]]]].
  pose proof (scan_literal ip fp ex A1 A2 A3 A4 A5) as N.
  rewrite <- L in N. rewrite A7, A8 in N.
  unfold PyFloat.of_decimal in N.
  rewrite round_decimal_scale, R, SF2Prim_Prim2SF in N by lia.
  assert (Hd : exists d t, PyFloat.layout ds pt = String d t /\ Json.is_digit d = true).
  { rewrite L. destruct A2 as [->|[c [t [-> _]]]].
    - eexists _, _. split; reflexivity.
    - eexists _, _. split; [reflexivity|]. simpl in A1. apply andb_prop in A1. tauto. }
  destruct Hd as [d [t [E D]]]. rewrite E in *.
  apply loads_number; assumption.
Qed.

(** ** Fractions divided by powers of two *)

Lemma pow2_pos (k : Z) : 0 <= k -> 0 < 2 ^ k.
Proof. intros. apply Z.pow_pos_nonneg; lia. Qed.

Lemma scaled_max (n d k : Z) :
  PyFloat.scaled n d k = (n * 2 ^ Z.max 0 (- k), d * 2 ^ Z.max 0 k).
Proof.
  unfold PyFloat.scaled. destruct (Z.ltb_spec k 0).
  - rewrite (Z.max_r 0 (- k)), (Z.max_l 0 k) by lia. f_equal. simpl. lia.
  - rewrite (Z.max_l 0 (- k)), (Z.max_r 0 k) by lia. f_equal. simpl. lia.
Qed.

(** [2 ^ max 0 (-(k - j)) * 2 ^ max 0 k = 2 ^ j * 2 ^ max 0 (-k) * 2 ^ max 0 (k - j)] *)
Lemma pow2_shift (k j : Z) : 0 <= j ->
  2 ^ Z.max 0 (- (k - j)) * 2 ^ Z.max 0 k
  = 2 ^ j * (2 ^ Z.max 0 (- k) * 2 ^ Z.max 0 (k - j)).
Proof.
  intros Hj. rewrite <- !Z.pow_add_r by lia. f_equal. lia.
Qed.

Section Ratio.
Variables n d : Z.
Hypothesis Hn : 0 < n.
Hypothesis Hd : 0 < d.

Lemma num_pos (k : Z) : 0 < num n d k.
Proof.
  unfold num. rewrite scaled_max. simpl. pose proof (pow2_pos (Z.max 0 (- k))). nia.
Qed.

Lemma den_pos (k : Z) : 0 < den n d k.
Proof.
  unfold den. rewrite scaled_max. simpl. pose proof (pow2_pos (Z.max 0 k)). nia.
Qed.

Lemma num_den_shift (k j : Z) : 0 <= j ->
  num n d (k - j) * den n d k = 2 ^ j * (num n d k * den n d (k - j)).
Proof.
  intros Hj. unfold num, den. rewrite !scaled_max. cbn [fst snd].
  pose proof (pow2_shift k j Hj) as P.
  set (a := 2 ^ Z.max 0 (- (k - j))) in *. set (b := 2 ^ Z.max 0 k) in *.
  set (c := 2 ^ Z.max 0 (- k)) in *. set (e := 2 ^ Z.max 0 (k - j)) in *.
  set (f := 2 ^ j) in *.
  transitivity (n * d * (a * b)); [ring|]. rewrite P. ring.
Qed.

Lemma above_shift (t k j : Z) : 0 <= j -> above n d t k -> above n d (t * 2 ^ j) (k - j).
Proof.
  unfold above. intros Hj H. pose proof (num_den_shift k j Hj) as S.
  pose proof (den_pos k). pose proof (den_pos (k - j)). pose proof (pow2_pos j Hj).
  apply (Z.mul_le_mono_pos_r _ _ (den n d k)); [lia|]. rewrite S.
  assert (t * den n d k * (2 ^ j * den n d (k - j)) <= num n d k * (2 ^ j * den n d (k - j))) by
    (apply Z.mul_le_mono_nonneg_r; nia).
  nia.
Qed.

Lemma below_shift (t k j : Z) : 0 <= j -> below n d t k -> below n d (t * 2 ^ j) (k - j).
Proof.
  unfold below. intros Hj H. pose proof (num_den_shift k j Hj) as S.
  pose proof (den_pos k). pose proof (den_pos (k - j)). pose proof (pow2_pos j Hj).
  apply (Z.mul_lt_mono_pos_r (den n d k)); [lia|]. rewrite S.
  assert (num n d k * (2 ^ j * den n d (k - j)) < t * den n d k * (2 ^ j * den n d (k - j))) by
    (apply Z.mul_lt_mono_pos_r; nia).
  nia.
Qed.

(** If [t1 * 2 ^ k1 <= n / d < t2 * 2 ^ k2] then [t1 * 2 ^ k1 < t2 * 2 ^ k2]. *)
Lemma above_below (t1 k1 t2 k2 k0 : Z) :
  k0 <= k1 -> k0 <= k2 -> above n d t1 k1 -> below n d t2 k2 ->
  t1 * 2 ^ (k1 - k0) < t2 * 2 ^ (k2 - k0).
Proof.
  intros H1 H2 A B.
  apply (above_shift t1 k1 (k1 - k0)) in A; [|lia].
  apply (below_shift t2 k2 (k2 - k0)) in B; [|lia].
  replace (k1 - (k1 - k0)) with k0 in A by lia.
  replace (k2 - (k2 - k0)) with k0 in B by lia.
  unfold above, below in *. pose proof (den_pos k0). nia.
Qed.

Lemma floor_above_below (k : Z) : above n d (num n d k / den n d k) k /\ below n d (num n d k / den n d k + 1) k.
Proof.
  unfold above, below. pose proof (den_pos k).
  pose proof (Z.div_mod (num n d k) (den n d k) ltac:(lia)).
  pose proof (Z.mod_pos_bound (num n d k) (den n d k) ltac:(lia)). nia.
Qed.

Lemma floor_unique (k t : Z) : above n d t k -> below n d (t + 1) k -> num n d k / den n d k = t.
Proof.
  unfold above, below. intros A B. pose proof (den_pos k).
  symmetry. apply (Z.div_unique _ _ t (num n d k - t * den n d k)); [lia | ring].
Qed.


Lemma above_unshift (t k j : Z) : 0 <= j -> above n d (t * 2 ^ j) (k - j) -> above n d t k.
Proof.
  unfold above. intros Hj H. pose proof (num_den_shift k j Hj) as S.
  pose proof (den_pos k). pose proof (den_pos (k - j)). pose proof (pow2_pos j Hj).
  apply (Z.mul_le_mono_pos_r _ _ (2 ^ j * den n d (k - j))); [nia|].
  replace (num n d k * (2 ^ j * den n d (k - j))) with (num n d (k - j) * den n d k) by lia.
  assert (t * 2 ^ j * den n d (k - j) * den n d k <= num n d (k - j) * den n d k) by
    (apply Z.mul_le_mono_nonneg_r; lia).
  nia.
Qed.

Lemma below_unshift (t k j : Z) : 0 <= j -> below n d (t * 2 ^ j) (k - j) -> below n d t k.
Proof.
  unfold below. intros Hj H. pose proof (num_den_shift k j Hj) as S.
  pose proof (den_pos k). pose proof (den_pos (k - j)). pose proof (pow2_pos j Hj).
  apply (Z.mul_lt_mono_pos_r (2 ^ j * den n d (k - j))); [nia|].
  replace (num n d k * (2 ^ j * den n d (k - j))) with (num n d (k - j) * den n d k) by lia.
  assert (num n d (k - j) * den n d k < t * 2 ^ j * den n d (k - j) * den n d k) by
    (apply Z.mul_lt_mono_pos_r; lia).
  nia.
Qed.

Lemma above_mono (t t' k : Z) : t' <= t -> above n d t k -> above n d t' k.
Proof. unfold above. intros. pose proof (den_pos k). nia. Qed.

Lemma below_mono (t t' k : Z) : t <= t' -> below n d t k -> below n d t' k.
Proof. unfold below. intros. pose proof (den_pos k). nia. Qed.

(** The binary exponent is the one of [n / d]. *)
Lemma binary_exponent_spec :
  above n d 1 (PyFloat.binary_exponent n d) /\ below n d 2 (PyFloat.binary_exponent n d).
Proof.
  unfold PyFloat.binary_exponent.
  set (e1 := Z.log2 n - Z.log2 d - 2).
  rewrite (surjective_pairing (PyFloat.scaled n d e1)).
  change (fst (PyFloat.scaled n d e1)) with (num n d e1).
  change (snd (PyFloat.scaled n d e1)) with (den n d e1).
  set (n1 := num n d e1). set (d1 := den n d e1).
  assert (N1 : n1 = num n d e1) by reflexivity.
  assert (D1 : d1 = den n d e1) by reflexivity.
  pose proof (Z.log2_spec n Hn) as [Ln _].
  pose proof (Z.log2_spec d Hd) as [_ Ld].
  pose proof (Z.log2_nonneg n) as An. pose proof (Z.log2_nonneg d) as Ad.
  assert (Q1 : 1 <= n1 / d1).
  { rewrite N1, D1. apply Z.div_le_lower_bound; [apply den_pos|].
    unfold num, den. rewrite scaled_max. cbn [fst snd]. subst e1.
    destruct (Z.le_ge_cases 0 (Z.log2 n - Z.log2 d - 2)) as [C|C].
    - rewrite (Z.max_l 0 (- _)), (Z.max_r 0 _) by lia. rewrite Z.pow_0_r.
      assert (2 ^ Z.succ (Z.log2 d) * 2 ^ (Z.log2 n - Z.log2 d - 2) <= 2 ^ Z.log2 n).
      { rewrite <- Z.pow_add_r by lia. apply Z.pow_le_mono_r; lia. }
      pose proof (pow2_pos (Z.log2 n - Z.log2 d - 2) C). nia.
    - rewrite (Z.max_r 0 (- _)), (Z.max_l 0 _) by lia. rewrite Z.pow_0_r.
      assert (2 ^ Z.succ (Z.log2 d) <= 2 ^ Z.log2 n * 2 ^ (- (Z.log2 n - Z.log2 d - 2))).
      { rewrite <- Z.pow_add_r by lia. apply Z.pow_le_mono_r; lia. }
      pose proof (pow2_pos (- (Z.log2 n - Z.log2 d - 2)) ltac:(lia)). nia. }
  pose proof (Z.log2_spec (n1 / d1) ltac:(lia)) as [L1 L2].
  pose proof (Z.log2_nonneg (n1 / d1)) as L0.
  pose proof (floor_above_below e1) as [F1 F2]. rewrite <- N1, <- D1 in F1, F2.
  set (L := Z.log2 (n1 / d1)) in *.
  split.
  - apply (above_unshift 1 (e1 + L) L L0).
    replace (e1 + L - L) with e1 by lia.
    apply (above_mono (n1 / d1)); [lia | exact F1].
  - apply (below_unshift 2 (e1 + L) L L0).
    replace (e1 + L - L) with e1 by lia.
    apply (below_mono (n1 / d1 + 1)); [|exact F2].
    rewrite Z.pow_succ_r in L2 by lia. lia.
Qed.

End Ratio.

Lemma round_half_even_near (A B m : Z) :
  0 < B -> (4 * m - 2) * B < 4 * A -> 4 * A < (4 * m + 2) * B ->
  PyFloat.round_half_even A B = m.
Proof.
  intros HB L U. unfold PyFloat.round_half_even.
  pose proof (Z.div_mod A B ltac:(lia)) as E.
  pose proof (Z.mod_pos_bound A B HB) as R.
  set (q := A / B) in *. set (r := A mod B) in *.
  assert (Q : q = m - 1 \/ q = m).
  { assert (m - 1 <= q) by nia. assert (q <= m) by nia. lia. }
  destruct Q as [Q|Q].
  - assert (B < 2 * r) by nia.
    destruct (Z.ltb_spec B (2 * r)); [simpl; lia | lia].
  - assert (2 * r < B) by nia.
    destruct (Z.ltb_spec B (2 * r)); [lia|].
    destruct (Z.eqb_spec B (2 * r)); [lia|]. simpl. lia.
Qed.

Lemma pow2_lt_inv (a b : Z) : 0 <= a -> 0 <= b -> 2 ^ a < 2 ^ b -> a < b.
Proof. intros Ha Hb H. apply (Z.pow_lt_mono_r_iff 2); lia. Qed.

Lemma above_below_exp (n d a k1 b k2 : Z) :
  0 < n -> 0 < d -> 0 <= a -> 0 <= b ->
  above n d (2 ^ a) k1 -> below n d (2 ^ b) k2 -> a + k1 < b + k2.
Proof.
  intros Hn Hd Ha Hb A B.
  pose proof (above_below n d Hn Hd (2 ^ a) k1 (2 ^ b) k2 (Z.min k1 k2)
                ltac:(lia) ltac:(lia) A B) as P.
  rewrite <- !Z.pow_add_r in P by lia.
  apply pow2_lt_inv in P; lia.
Qed.

(** A fraction inside the rounding interval of the float [m * 2 ^ e] rounds
    to it. *)
Lemma round_ratio_interval (n d : Z) (m : positive) (e : Z) :
  0 < n -> 0 < d ->
  (2 ^ 52 <= Zpos m < 2 ^ 53 /\ -1074 <= e) \/ (Zpos m < 2 ^ 52 /\ e = -1074) ->
  e <= 971 ->
  (4 * Zpos m - 2) * den n d e < 4 * num n d e ->
  4 * num n d e < (4 * Zpos m + 2) * den n d e ->
  (Zpos m = 2 ^ 52 -> -1074 < e -> (4 * Zpos m - 1) * den n d e < 4 * num n d e) ->
  PyFloat.round_ratio false n d = S754_finite false m e.
Proof.
  intros Hn Hd Can Emax I1 I2 I3.
  pose proof (binary_exponent_spec n d Hn Hd) as [EA EB].
  set (E := PyFloat.binary_exponent n d) in *.
  pose proof (den_pos n d Hn Hd e) as PB. pose proof (num_pos n d Hn e) as PA.
  assert (Mlt : Zpos m < 2 ^ 53) by (destruct Can; lia).
  (* the exponent is at most 52 + e *)
  assert (U : below n d (2 ^ 53) e) by (unfold below; nia).
  assert (EU : E < 53 + e).
  { pose proof (above_below_exp n d 0 E 53 e Hn Hd ltac:(lia) ltac:(lia) EA U). lia. }
  (* rounding at the exponent e *)
  assert (At_e : Z.max (E - 52) (-1074) = e ->
                 PyFloat.round_ratio false n d = S754_finite false m e).
  { intros Ee. unfold PyFloat.round_ratio. fold E. rewrite Ee.
    rewrite (surjective_pairing (PyFloat.scaled n d e)).
    change (fst (PyFloat.scaled n d e)) with (num n d e).
    change (snd (PyFloat.scaled n d e)) with (den n d e).
    rewrite (round_half_even_near _ _ (Zpos m) PB I1 I2).
    destruct (Z.eqb_spec (Zpos m) (2 ^ 53)); [lia|].
    destruct (Z.leb_spec e 971); [reflexivity | lia]. }
  destruct Can as [[[M1 M2] Emin] | [M1 ->]].
  2:{ apply At_e. lia. }
  destruct (Z_le_gt_dec (2 ^ 52 * den n d e) (num n d e)) as [Hi|Lo].
  - (* above 2 ^ 52 at the exponent e *)
    assert (EL : 51 + e < E).
    { pose proof (above_below_exp n d 52 e 1 E Hn Hd ltac:(lia) ltac:(lia) Hi EB). lia. }
    apply At_e. lia.
  - (* below: the mantissa is 2 ^ 52 *)
    assert (Mm : Zpos m = 2 ^ 52) by nia.
    destruct (Z.eq_dec e (-1074)) as [->|Ne].
    { apply At_e. lia. }
    specialize (I3 Mm ltac:(lia)).
    assert (L51 : above n d (2 ^ 51) e) by (unfold above; nia).
    assert (U52 : below n d (2 ^ 52) e) by (unfold below; lia).
    assert (EL : 50 + e < E).
    { pose proof (above_below_exp n d 51 e 1 E Hn Hd ltac:(lia) ltac:(lia) L51 EB). lia. }
    assert (EU' : E < 52 + e).
    { pose proof (above_below_exp n d 0 E 52 e Hn Hd ltac:(lia) ltac:(lia) EA U52). lia. }
    unfold PyFloat.round_ratio. fold E.
    replace (Z.max (E - 52) (-1074)) with (e - 1) by lia.
    rewrite (surjective_pairing (PyFloat.scaled n d (e - 1))).
    change (fst (PyFloat.scaled n d (e - 1))) with (num n d (e - 1)).
    change (snd (PyFloat.scaled n d (e - 1))) with (den n d (e - 1)).
    pose proof (num_den_shift n d e 1 ltac:(lia)) as S. rewrite Z.pow_1_r in S.
    pose proof (den_pos n d Hn Hd (e - 1)) as PB'.
    rewrite (round_half_even_near _ _ (2 ^ 53) PB').
    + change (2 ^ 53 =? 2 ^ 53) with true. cbv iota.
      replace (e - 1 + 1) with e by lia. rewrite <- Mm.
      destruct (Z.leb_spec e 971); [reflexivity | lia].
    + apply (Z.mul_lt_mono_pos_r (den n d e)); [lia|]. nia.
    + apply (Z.mul_lt_mono_pos_r (den n d e)); [lia|]. nia.
Qed.

(** ** The floats of binary64 *)

Lemma digits2_log2 (m : positive) : Zpos (digits2_pos m) = Z.log2 (Zpos m) + 1.
Proof.
  induction m as [m IH|m IH|]; cbn [digits2_pos].
  - rewrite Pos2Z.inj_succ, IH.
    change (Z.pos m~1) with (2 * Z.pos m + 1).
    rewrite Z.log2_succ_double by lia. lia.
  - rewrite Pos2Z.inj_succ, IH.
    change (Z.pos m~0) with (2 * Z.pos m).
    rewrite Z.log2_double by lia. lia.
  - reflexivity.
Qed.

Lemma bounded_canonical (m : positive) (e : Z) :
  bounded prec emax m e = true ->
  ((2 ^ 52 <= Zpos m < 2 ^ 53 /\ -1074 <= e) \/ (Zpos m < 2 ^ 52 /\ e = -1074))
  /\ e <= 971.
Proof.
  unfold bounded, canonical_mantissa, fexp, emin. intros H.
  apply andb_prop in H. destruct H as [H1 H2].
  apply Z.eqb_eq in H1. apply Z.leb_le in H2.
  rewrite digits2_log2 in H1.
  change prec with 53 in *. change emax with 1024 in *.
  pose proof (Z.log2_spec (Zpos m) ltac:(lia)) as [L1 L2].
  pose proof (Z.log2_nonneg (Zpos m)) as L0.
  split; [|lia].
  destruct (Z_le_gt_dec (3 - 1024 - 53) (Z.log2 (Z.pos m) + 1 + e - 53)) as [C|C].
  - left. rewrite Z.max_l in H1 by lia.
    assert (Z.log2 (Z.pos m) = 52) as E52 by lia. rewrite E52 in *.
    split; [|lia]. split; [exact L1|]. exact L2.
  - right. rewrite Z.max_r in H1 by lia. split; [|lia].
    eapply Z.lt_le_trans; [exact L2|]. apply Z.pow_le_mono_r; lia.
Qed.

(** ** The position of the decimal point *)

Lemma decpt_up_spec (fuel : nat) (n d : Z) : forall p,
  let r := PyFloat.decpt_up fuel n d p in
  p <= r /\ (r = p \/ d * 10 ^ (r - 1) <= n).
Proof.
  induction fuel as [|f IH]; intros p; cbn [PyFloat.decpt_up]; [lia|].
  destruct (Z.ltb_spec n (d * 10 ^ p)) as [L|L]; [lia|].
  specialize (IH (p + 1)). cbv zeta in IH. destruct IH as [I1 [I2|I2]].
  - split; [lia|]. right. rewrite I2. replace (p + 1 - 1) with p by lia. exact L.
  - split; [lia|]. right. exact I2.
Qed.

Lemma decpt_down_spec (fuel : nat) (n d : Z) : forall p,
  d <= n * 10 ^ (Z.of_nat fuel - p) -> (0 < fuel)%nat ->
  let r := PyFloat.decpt_down fuel n d p in
  r <= p /\ d <= n * 10 ^ (1 - r).
Proof.
  induction fuel as [|f IH]; intros p H F; [lia|]. cbn [PyFloat.decpt_down].
  destruct (Z.leb_spec d (n * 10 ^ (1 - p))) as [L|L]; [lia|].
  destruct f as [|f].
  - exfalso. change (Z.of_nat 1) with 1 in H. lia.
  - specialize (IH (p - 1)). cbv zeta in IH.
    replace (Z.of_nat (S f) - (p - 1)) with (Z.of_nat (S (S f)) - p) in IH by lia.
    specialize (IH H ltac:(lia)). lia.
Qed.

(** ** Seventeen digits are enough *)

Lemma decimal_ratio_max (c s : Z) :
  PyFloat.decimal_ratio c (- s) = (c * 10 ^ Z.max 0 (- s), 10 ^ Z.max 0 s).
Proof.
  unfold PyFloat.decimal_ratio. destruct (Z.leb_spec 0 (- s)).
  - rewrite (Z.max_r 0 (- s)), (Z.max_l 0 s) by lia. reflexivity.
  - rewrite (Z.max_l 0 (- s)), (Z.max_r 0 s) by lia. rewrite Z.pow_0_r.
    f_equal; [lia|]. f_equal. lia.
Qed.

Lemma reduce_spec (n d : Z) : 0 < n -> 0 < d ->
  0 < fst (PyFloat.reduce n d) /\ 0 < snd (PyFloat.reduce n d)
  /\ fst (PyFloat.reduce n d) * d = n * snd (PyFloat.reduce n d).
Proof.
  intros Hn Hd. unfold PyFloat.reduce. cbn [fst snd].
  set (g := Z.gcd n d).
  assert (Hg : 0 < g).
  { subst g. pose proof (Z.gcd_nonneg n d).
    destruct (Z.eq_dec (Z.gcd n d) 0) as [E|E]; [apply Z.gcd_eq_0_l in E; lia | lia]. }
  destruct (Z.gcd_divide_l n d) as [a Ha]. fold g in Ha.
  destruct (Z.gcd_divide_r n d) as [b Hb]. fold g in Hb.
  assert (Ea : n / g = a) by (rewrite Ha; apply Z.div_mul; lia).
  assert (Eb : d / g = b) by (rewrite Hb; apply Z.div_mul; lia).
  rewrite Ea, Eb. repeat split; nia.
Qed.

Section Seventeen.
Variables (m : positive) (e pt : Z).
Hypothesis Can :
  (2 ^ 52 <= Zpos m < 2 ^ 53 /\ -1074 <= e) \/ (Zpos m < 2 ^ 52 /\ e = -1074).
Hypothesis Emax : e <= 971.

Let s := 17 - pt.
Let n := Zpos m * 2 ^ Z.max 0 e.
Let d := 2 ^ Z.max 0 (- e).
Let cnum := n * 10 ^ Z.max 0 s.
Let cden := d * 10 ^ Z.max 0 (- s).

Hypothesis Digits : 10 ^ 16 * cden <= cnum.

Lemma near_back (c : Z) :
  2 * c * cden <= 2 * cnum + cden -> 2 * cnum <= 2 * c * cden + cden ->
  PyFloat.round_decimal false c (- s) = S754_finite false m e.
Proof.
  intros H1 H2.
  pose proof (pow2_pos (Z.max 0 e) ltac:(lia)) as PQ.
  pose proof (pow2_pos (Z.max 0 (- e)) ltac:(lia)) as PP.
  pose proof (pow10_pos (Z.max 0 s) ltac:(lia)) as PT.
  pose proof (pow10_pos (Z.max 0 (- s)) ltac:(lia)) as PT'.
  assert (Pn : 0 < n) by (subst n; nia).
  assert (Pd : 0 < d) by (subst d; lia).
  assert (Pcn : 0 < cnum) by (subst cnum; nia).
  assert (Pcd : 0 < cden) by (subst cden; nia).
  assert (Pc : 0 < c) by nia.
  unfold PyFloat.round_decimal.
  destruct (Z.eqb_spec c 0) as [Z0|_]; [lia|].
  rewrite decimal_ratio_max.
  pose proof (reduce_spec (c * 10 ^ Z.max 0 (- s)) (10 ^ Z.max 0 s) ltac:(nia) PT)
    as [R1 [R2 R3]].
  destruct (PyFloat.reduce (c * 10 ^ Z.max 0 (- s)) (10 ^ Z.max 0 s)) as [n' d'].
  cbn [fst snd] in R1, R2, R3.
  assert (Mlt : Zpos m < 2 ^ 53) by (destruct Can; lia).
  assert (P53 : 2 ^ 53 < 10 ^ 16) by (vm_compute; reflexivity).
  (* the identity between the two fractions *)
  set (A := num n' d' e). set (B := den n' d' e).
  assert (EA : A = n' * 2 ^ Z.max 0 (- e)) by (subst A; unfold num; now rewrite scaled_max).
  assert (EB : B = d' * 2 ^ Z.max 0 e) by (subst B; unfold den; now rewrite scaled_max).
  assert (PA : 0 < A) by (rewrite EA; nia).
  assert (PB : 0 < B) by (rewrite EB; nia).
  assert (ID : A * cnum = B * (Zpos m * (c * cden))).
  { rewrite EA, EB. subst cnum cden n d.
    set (P := 2 ^ Z.max 0 (- e)) in *. set (Q := 2 ^ Z.max 0 e) in *.
    set (T := 10 ^ Z.max 0 s) in *. set (T' := 10 ^ Z.max 0 (- s)) in *.
    transitivity (P * (Z.pos m * Q) * (n' * T)); [ring|]. rewrite R3. ring. }
  (* the distance to the float is below half a unit, and a quarter at 2 ^ 52 *)
  clear EA EB.
  assert (Tw : 2 * 2 ^ 52 = 2 ^ 53) by reflexivity.
  set (c53 := 2 ^ 53) in *. set (c16 := 10 ^ 16) in *. set (c52 := 2 ^ 52) in *.
  assert (K0 : c53 * cden < cnum).
  { apply Z.lt_le_trans with (c16 * cden); [|exact Digits].
    apply Z.mul_lt_mono_pos_r; assumption. }
  assert (K1 : Zpos m * cden < cnum).
  { apply Z.lt_trans with (c53 * cden); [|exact K0].
    apply Z.mul_lt_mono_pos_r; assumption. }
  assert (M1 : 2 * (Zpos m * (c * cden)) <= 2 * (Zpos m * cnum) + Zpos m * cden).
  { pose proof (Z.mul_le_mono_nonneg_l _ _ (Zpos m) ltac:(lia) H1). lia. }
  assert (M2 : 2 * (Zpos m * cnum) <= 2 * (Zpos m * (c * cden)) + Zpos m * cden).
  { pose proof (Z.mul_le_mono_nonneg_l _ _ (Zpos m) ltac:(lia) H2). lia. }
  assert (Step : forall u v, u * cnum < v * (Zpos m * (c * cden)) -> 0 <= v ->
                             u * B < v * A).
  { intros u v L V. apply (Z.mul_lt_mono_pos_r cnum); [lia|].
    replace (v * A * cnum) with (v * (A * cnum)) by ring. rewrite ID.
    replace (u * B * cnum) with (B * (u * cnum)) by ring.
    replace (v * (B * (Z.pos m * (c * cden)))) with (B * (v * (Z.pos m * (c * cden)))) by ring.
    apply Z.mul_lt_mono_pos_l; assumption. }
  assert (Step' : forall u v, v * (Zpos m * (c * cden)) < u * cnum -> 0 <= v ->
                              v * A < u * B).
  { intros u v L V. apply (Z.mul_lt_mono_pos_r cnum); [lia|].
    replace (v * A * cnum) with (v * (A * cnum)) by ring. rewrite ID.
    replace (u * B * cnum) with (B * (u * cnum)) by ring.
    replace (v * (B * (Z.pos m * (c * cden)))) with (B * (v * (Z.pos m * (c * cden)))) by ring.
    apply Z.mul_lt_mono_pos_l; assumption. }
  apply round_ratio_interval; try assumption.
  - apply Step; lia.
  - apply Step'; lia.
  - intros Mm _. apply Step; [|lia]. rewrite Mm in *. lia.
Qed.

End Seventeen.

Lemma shortest_none (fuel : nat) (X : spec_float) (n d pt : Z) : forall p0,
  PyFloat.shortest fuel X n d pt p0 = None ->
  forall k, (k < fuel)%nat -> PyFloat.candidate X n d pt (p0 + Z.of_nat k) = None.
Proof.
  induction fuel as [|f IH]; intros p0 H k Hk; [lia|].
  cbn [PyFloat.shortest] in H.
  destruct (PyFloat.candidate X n d pt p0) as [c|] eqn:E; [discriminate|].
  destruct k as [|k].
  - replace (p0 + Z.of_nat 0) with p0 by lia. exact E.
  - replace (p0 + Z.of_nat (S k)) with (p0 + 1 + Z.of_nat k) by lia.
    apply IH; [exact H | lia].
Qed.

Lemma candidate_seventeen (m : positive) (e pt : Z) :
  (2 ^ 52 <= Zpos m < 2 ^ 53 /\ -1074 <= e) \/ (Zpos m < 2 ^ 52 /\ e = -1074) ->
  e <= 971 ->
  let n := Zpos m * 2 ^ Z.max 0 e in
  let d := 2 ^ Z.max 0 (- e) in
  10 ^ 16 * (d * 10 ^ Z.max 0 (- (17 - pt))) <= n * 10 ^ Z.max 0 (17 - pt) ->
  PyFloat.candidate (S754_finite false m e) n d pt 17 <> None.
Proof.
  intros Can Emax n d Digits.
  pose proof (near_back m e pt Can Emax Digits) as NB.
  unfold PyFloat.candidate.
  assert (En : (if 0 <=? 17 - pt then n * 10 ^ (17 - pt) else n)
               = n * 10 ^ Z.max 0 (17 - pt)).
  { destruct (Z.leb_spec 0 (17 - pt)).
    - now rewrite Z.max_r by lia.
    - rewrite Z.max_l by lia. rewrite Z.pow_0_r. lia. }
  assert (Ed : (if 0 <=? 17 - pt then d else d * 10 ^ (- (17 - pt)))
               = d * 10 ^ Z.max 0 (- (17 - pt))).
  { destruct (Z.leb_spec 0 (17 - pt)).
    - rewrite Z.max_l by lia. rewrite Z.pow_0_r. lia.
    - now rewrite Z.max_r by lia. }
  rewrite En, Ed. fold n d in NB.
  set (cnum := n * 10 ^ Z.max 0 (17 - pt)) in *.
  set (cden := d * 10 ^ Z.max 0 (- (17 - pt))) in *.
  assert (Pd : 0 < cden).
  { subst cden d. pose proof (pow2_pos (Z.max 0 (- e)) ltac:(lia)).
    pose proof (pow10_pos (Z.max 0 (- (17 - pt))) ltac:(lia)). nia. }
  pose proof (Z.div_mod cnum cden ltac:(lia)) as DM.
  pose proof (Z.mod_pos_bound cnum cden Pd) as MB.
  set (lo := cnum / cden) in *. set (r := cnum mod cden) in *.
  assert (DM' : cnum = lo * cden + r) by lia. clear DM.
  assert (Self : PyFloat.sf_same (S754_finite false m e) (S754_finite false m e) = true).
  { cbn [PyFloat.sf_same]. now rewrite Pos.eqb_refl, Z.eqb_refl. }
  destruct (Z.eqb_spec r 0) as [R0|R0].
  - rewrite (NB lo) by lia. rewrite Self. discriminate.
  - destruct (Z_le_gt_dec (2 * r) cden) as [Near|Far].
    + rewrite (NB lo) by lia. rewrite Self.
      match goal with
      | |- context [PyFloat.sf_same ?a ?b] => destruct (PyFloat.sf_same a b)
      end; discriminate.
    + rewrite (NB (lo + 1)) by lia. rewrite Self.
      match goal with
      | |- context [PyFloat.sf_same ?a ?b] => destruct (PyFloat.sf_same a b)
      end; discriminate.
Qed.

Lemma decpt_digits (m : positive) (e : Z) :
  -1074 <= e ->
  let n := Zpos m * 2 ^ Z.max 0 e in
  let d := 2 ^ Z.max 0 (- e) in
  let pt := PyFloat.decpt n d in
  10 ^ 16 * (d * 10 ^ Z.max 0 (- (17 - pt))) <= n * 10 ^ Z.max 0 (17 - pt).
Proof.
  intros Emin n d pt.
  pose proof (pow2_pos (Z.max 0 e) ltac:(lia)) as PQ.
  pose proof (pow2_pos (Z.max 0 (- e)) ltac:(lia)) as PP.
  assert (Pn : 0 < n) by (subst n; nia).
  assert (Pd : 0 < d) by (subst d; lia).
  subst pt. unfold PyFloat.decpt. destruct (Z.leb_spec d n) as [C|C].
  - pose proof (decpt_up_spec 400 n d 1) as U. cbv zeta in U.
    set (pt := PyFloat.decpt_up 400 n d 1) in *. destruct U as [U1 U2].
    assert (L : d * 10 ^ (pt - 1) <= n).
    { destruct U2 as [->|U2]; [|exact U2]. change (10 ^ (1 - 1)) with 1. lia. }
    destruct (Z_le_gt_dec pt 17) as [S|S].
    + rewrite (Z.max_l 0 (- (17 - pt))), (Z.max_r 0 (17 - pt)) by lia.
      rewrite Z.pow_0_r.
      replace 16 with ((pt - 1) + (17 - pt)) by lia. rewrite Z.pow_add_r by lia.
      pose proof (pow10_pos (17 - pt) ltac:(lia)). nia.
    + rewrite (Z.max_r 0 (- (17 - pt))), (Z.max_l 0 (17 - pt)) by lia.
      rewrite Z.pow_0_r.
      replace (pt - 1) with (16 + - (17 - pt)) in L by lia.
      rewrite Z.pow_add_r in L by lia. lia.
  - assert (F : d <= n * 10 ^ (Z.of_nat 400 - 0)).
    { assert (D : d <= 2 ^ 1074) by (subst d; apply Z.pow_le_mono_r; lia).
      assert (T : 2 ^ 1074 <= 10 ^ (Z.of_nat 400 - 0)) by (vm_compute; discriminate).
      assert (0 < 10 ^ (Z.of_nat 400 - 0)) by (apply pow10_pos; lia). nia. }
    pose proof (decpt_down_spec 400 n d 0 F ltac:(lia)) as U. cbv zeta in U.
    set (pt := PyFloat.decpt_down 400 n d 0) in *. destruct U as [U1 U2].
    rewrite (Z.max_l 0 (- (17 - pt))), (Z.max_r 0 (17 - pt)) by lia.
    rewrite Z.pow_0_r.
    replace (17 - pt) with (16 + (1 - pt)) by lia. rewrite Z.pow_add_r by lia.
    assert (0 < 10 ^ 16) by (apply pow10_pos; lia). nia.
Qed.

(** [repr] finds digits for every finite float above zero. *)
Lemma shortest_digits_found (x : float) (m : positive) (e : Z) :
  Prim2SF x = S754_finite false m e -> PyFloat.shortest_digits x <> None.
Proof.
  intros H.
  pose proof (Prim2SF_valid x) as V. rewrite H in V. cbn [valid_binary] in V.
  apply bounded_canonical in V. destruct V as [Can Emax].
  unfold PyFloat.shortest_digits, PyFloat.magnitude. rewrite H.
  rewrite scaled_max, Z.opp_involutive, Z.mul_1_l.
  cbn [PyFloat.abs_sf].
  pose proof (decpt_digits m e ltac:(destruct Can; lia)) as Dg. cbv zeta in Dg.
  pose proof (candidate_seventeen m e _ Can Emax Dg) as C17. cbv zeta in C17.
  set (n := Zpos m * 2 ^ Z.max 0 e) in *. set (d := 2 ^ Z.max 0 (- e)) in *.
  set (pt := PyFloat.decpt n d) in *.
  destruct (PyFloat.shortest 17 (S754_finite false m e) n d pt 1) as [[c p]|] eqn:S.
  - discriminate.
  - exfalso. apply C17.
    apply (shortest_none 17 _ n d pt 1 S 16%nat). lia.
Qed.

(** ** The round trip *)

(** Every float greater than zero is read back from the text [json.dumps]
    writes for it: [repr] finds digits, at most seventeen, and the literal it
    lays out rounds to the float again. *)
Lemma positive_float_reads_back (x : float) :
  PyFloat.gt0 x = true -> float_reads_back x.
Proof.
  intros H. destruct (gt0_cases x H) as [[m [e F]] | I].
  - destruct (PyFloat.shortest_digits x) as [[ds pt]|] eqn:S.
    + exact (repr_reads_back x m e ds pt F S).
    + exfalso. exact (shortest_digits_found x m e F S).
  - exact (infinity_reads_back x I).
Qed.

(** The same by evaluation, on three floats. *)
Lemma float_reads_back_examples :
  float_reads_back 6371 /\ float_reads_back 0.5 /\ float_reads_back infinity.
Proof.
  repeat split; vm_compute; reflexivity.
Qed.

(** C1: for a record with a name of the fixed set and a radius greater than
    zero, [from_json] of [to_json] is the record again, field by field. *)
Theorem from_json_to_json (b : AstronomicalBody.t) :
  In (AstronomicalBody.name b) planet_names ->
  PyFloat.gt0 (AstronomicalBody.radius b) = true ->
  AstronomicalBody.from_json (AstronomicalBody.to_json b) = Ok b.
Proof.
  intros Hn Hr.
  rewrite (from_json_object _ _ (loads_to_json b (positive_float_reads_back _ Hr))).
  destruct b as [n r a]. apply (construct_ok n r a Hn Hr).
Qed.

Lemma from_json_to_json_witness :
  AstronomicalBody.from_json (AstronomicalBody.to_json earth) = Ok earth.
Proof.
  apply from_json_to_json.
  - simpl. do 2 right. left. reflexivity.
  - reflexivity.
Defined.

(** * Further properties of the module *)







(** The exceptions that end the validation of a field at once. *)
Lemma check_name_abort (v : value) (w : stop) :
  AstronomicalBody.check_name v = Abort w ->
  exists n, w = StopRaise (InvalidPlanetNameException n).
Proof.
  unfold AstronomicalBody.check_name, AstronomicalBody.validate_name.
  destruct v; simpl; try discriminate;
    match goal with |- context [is_planet_name ?s] => destruct (is_planet_name s) end;
    simpl; try discriminate; intros H; injection H as <-; eexists; reflexivity.
Qed.

Lemma check_bounds_abort (x : float) (w : stop) :
  AstronomicalBody.check_bounds x <> Abort w.
Proof.
  unfold AstronomicalBody.check_bounds, Pydantic.number_size_validator_gt0,
    AstronomicalBody.validate_radius.
  destruct (PyFloat.gt0 x); simpl; [|discriminate].
  destruct (PyFloat.le0 x); simpl; discriminate.
Qed.

Lemma check_radius_abort (v : value) (w : stop) :
  AstronomicalBody.check_radius v = Abort w ->
  w = StopRaise OverflowError \/ w = StopNotModelled.
Proof.
  unfold AstronomicalBody.check_radius.
  destruct v; simpl; try discriminate;
    try (intros H; exfalso; exact (check_bounds_abort _ _ H)).
  - destruct (PyFloat.of_int n); simpl.
    + intros H; exfalso; exact (check_bounds_abort _ _ H).
    + intros H; injection H as <-; now left.
  - intros H; injection H as <-; now right.
Qed.

Lemma check_atmosphere_abort (v : value) (w : stop) :
  AstronomicalBody.check_atmosphere v <> Abort w.
Proof.
  destruct (check_atmosphere_total v) as [E | [[a E] | [errs E]]]; rewrite E; discriminate.
Qed.

(** The errors of a [ValidationError] of the constructor are those of the
    three fields, in the order of the class. *)
Lemma validate_model_errors (data : list (string * value)) (errs : list ErrorWrapper) :
  AstronomicalBody.validate_model data = Raise (ValidationError errs) ->
  errs = (errors_of (AstronomicalBody.required "name" AstronomicalBody.check_name data)
          ++ errors_of (AstronomicalBody.required "radius" AstronomicalBody.check_radius data)
          ++ errors_of (AstronomicalBody.required "atmosphere_composition"
                          AstronomicalBody.check_atmosphere data))%list.
Proof.
  unfold AstronomicalBody.validate_model, AstronomicalBody.required.
  destruct (Dict.get data "name") as [v1|];
    [destruct (AstronomicalBody.check_name v1) as [n | e1 | w1] eqn:C1|];
    try (destruct (check_name_abort _ _ C1) as [m ->]; simpl; discriminate);
    (destruct (Dict.get data "radius") as [v2|];
     [destruct (AstronomicalBody.check_radius v2) as [r | e2 | w2] eqn:C2|]);
    try (destruct (check_radius_abort _ _ C2) as [-> | ->]; simpl; discriminate);
    (destruct (Dict.get data "atmosphere_composition") as [v3|];
     [destruct (AstronomicalBody.check_atmosphere v3) as [a | e3 | w3] eqn:C3|]);
    try (exfalso; exact (check_atmosphere_abort _ _ C3));
    simpl; try discriminate; intros H; injection H as <-; reflexivity.
Qed.



(** X2: [validate_radius] against the bound [gt=0] of the field: a value the
    bound lets through is returned unchanged; a value the validator would
    refuse has been refused by the bound, with the error of the bound; and
    NaN, which the validator alone would return, is refused by the bound. *)
Theorem validate_radius_shadowed_by_bound :
  (forall v, PyFloat.gt0 v = true -> AstronomicalBody.validate_radius v = Returns v)
  /\ (forall v, PyFloat.le0 v = true ->
        AstronomicalBody.validate_radius v
        = RaisesValueError "Radius must be a positive number."
        /\ AstronomicalBody.check_bounds v = Invalid [radius_error])
  /\ (AstronomicalBody.validate_radius nan = Returns nan
      /\ AstronomicalBody.check_bounds nan = Invalid [radius_error]).
Proof.
  split; [|split].
  - intros v G. unfold AstronomicalBody.validate_radius. now rewrite (gt0_not_le0 v G).
  - intros v L. split.
    + unfold AstronomicalBody.validate_radius. now rewrite L.
    + unfold AstronomicalBody.check_bounds, Pydantic.number_size_validator_gt0.
      now rewrite (le0_not_gt0 v L).
  - split; reflexivity.
Qed.

(** X3: under a name of the fixed set and any list of strings, the radius
    decides the construction: the record with the three inputs when it is
    greater than zero, and otherwise (NaN included) [ValidationError] with
    the one error of the bound. *)
Theorem construct_decided_by_radius (n : string) (r : float) (a : list string) :
  In n planet_names ->
  AstronomicalBody.construct n r a
  = if PyFloat.gt0 r
    then Ok {| AstronomicalBody.name := n; AstronomicalBody.radius := r;
               AstronomicalBody.atmosphere_composition := a |}
    else Raise (ValidationError [radius_error]).
Proof.
  intros Hn. destruct (PyFloat.gt0 r) eqn:G.
  - apply construct_ok; assumption.
  - unfold AstronomicalBody.construct, AstronomicalBody.init.
    rewrite (validate_model_invalid_radius _ n (VFloat r) (VList (map VStr a)) r);
      try reflexivity; try assumption.
    + now rewrite check_atmosphere_strings.
    + apply is_planet_name_spec, Hn.
Qed.

Lemma construct_decided_by_radius_witness :
  AstronomicalBody.construct "Venus" nan ["CO2"] = Raise (ValidationError [radius_error])
  /\ AstronomicalBody.construct "Venus" infinity ["CO2"]
     = Ok {| AstronomicalBody.name := "Venus"; AstronomicalBody.radius := infinity;
             AstronomicalBody.atmosphere_composition := ["CO2"] |}.
Proof.
  split.
  - apply (construct_decided_by_radius "Venus" nan ["CO2"]).
    simpl. right. left. reflexivity.
  - apply (construct_decided_by_radius "Venus" infinity ["CO2"]).
    simpl. right. left. reflexivity.
Defined.

(** The record read back from its own JSON text. *)
Lemma restored_from_own_json (n : string) (r : float) (a : list string) :
  In n planet_names -> PyFloat.gt0 r = true ->
  AstronomicalBody.from_json
    (AstronomicalBody.to_json {| AstronomicalBody.name := n; AstronomicalBody.radius := r;
                                 AstronomicalBody.atmosphere_composition := a |})
  = Ok {| AstronomicalBody.name := n; AstronomicalBody.radius := r;
          AstronomicalBody.atmosphere_composition := a |}.
Proof.
  intros Hn Hr.
  rewrite (from_json_object _ _
             (loads_to_json {| AstronomicalBody.name := n; AstronomicalBody.radius := r;
                               AstronomicalBody.atmosphere_composition := a |}
                (positive_float_reads_back r Hr))).
  apply (construct_ok n r a Hn Hr).
Qed.

(** The call of the constructor in [main]. *)
Lemma main_init (args : Namespace) :
  try_block args
  = handle [] None
      (AstronomicalBody.init [("name", VStr (arg_name args)); ("radius", VFloat (arg_radius args));
                              ("atmosphere_composition", atmosphere_value (arg_atmosphere args))])
      (fun body =>
         let json_data := AstronomicalBody.to_json body in
         let events :=
           [Print [PStr "Astronomical Body Created:"; PBody body];
            Print [PStr "Serialized to JSON:"; PStr json_data];
            Print [PStr (newline ++ "Deserializing from JSON...")]] in
         handle events (Some body) (AstronomicalBody.from_json json_data)
           (fun restored =>
              Continue (events ++ [Print [PStr "Restored Astronomical Body:"; PBody restored]])%list
                       (Some body))).
Proof. reflexivity. Qed.

(** X4: with a name of the fixed set, a radius greater than zero and an
    atmosphere, [main] prints the record, its JSON text, the line of the
    deserialization and the restored record, which is the record itself,
    then the star, opens the window with the four texts, and returns. *)
Theorem main_valid_run (args : Namespace) (a : list string) :
  In (arg_name args) planet_names ->
  PyFloat.gt0 (arg_radius args) = true ->
  arg_atmosphere args = Some a ->
  let body := {| AstronomicalBody.name := arg_name args;
                 AstronomicalBody.radius := arg_radius args;
                 AstronomicalBody.atmosphere_composition := a |} in
  main args
  = ([Print [PStr "Astronomical Body Created:"; PBody body];
      Print [PStr "Serialized to JSON:"; PStr (AstronomicalBody.to_json body)];
      Print [PStr (newline ++ "Deserializing from JSON...")];
      Print [PStr "Restored Astronomical Body:"; PBody body]]
     ++ star_events ++ window_events body,
     Returned)%list.
Proof.
  intros Hn Hr Ha body. unfold main. rewrite main_init, Ha.
  change (AstronomicalBody.init _)
    with (AstronomicalBody.construct (arg_name args) (arg_radius args) a).
  rewrite (construct_ok _ _ a Hn Hr). cbv beta iota zeta delta [handle].
  rewrite (restored_from_own_json _ _ a Hn Hr). reflexivity.
Qed.

Lemma main_valid_run_witness :
  main {| arg_name := "Earth"; arg_radius := 6371; arg_atmosphere := Some ["N2"; "O2"] |}
  = ([Print [PStr "Astronomical Body Created:"; PBody earth];
      Print [PStr "Serialized to JSON:"; PStr (AstronomicalBody.to_json earth)];
      Print [PStr (newline ++ "Deserializing from JSON...")];
      Print [PStr "Restored Astronomical Body:"; PBody earth]]
     ++ star_events ++ window_events earth,
     Returned)%list.
Proof.
  apply (main_valid_run
           {| arg_name := "Earth"; arg_radius := 6371; arg_atmosphere := Some ["N2"; "O2"] |}
           ["N2"; "O2"]).
  - simpl. do 2 right. left. reflexivity.
  - reflexivity.
  - reflexivity.
Defined.

(** The construction in [main] when it fails. *)
Lemma main_init_outcome (args : Namespace) :
  AstronomicalBody.init [("name", VStr (arg_name args)); ("radius", VFloat (arg_radius args));
                         ("atmosphere_composition", atmosphere_value (arg_atmosphere args))]
  = if is_planet_name (arg_name args)
    then match (if PyFloat.gt0 (arg_radius args) then [] else [radius_error])
               ++ match arg_atmosphere args with
                  | Some _ => []
                  | None => [atmosphere_none_error]
                  end with
         | [] => Ok {| AstronomicalBody.name := arg_name args;
                       AstronomicalBody.radius := arg_radius args;
                       AstronomicalBody.atmosphere_composition :=
                         match arg_atmosphere args with Some l => l | None => [] end |}
         | errs => Raise (ValidationError errs)
         end%list
    else Raise (InvalidPlanetNameException (arg_name args)).
Proof.
  unfold AstronomicalBody.init.
  destruct (is_planet_name (arg_name args)) eqn:N.
  - destruct (PyFloat.gt0 (arg_radius args)) eqn:G.
    + destruct (arg_atmosphere args) as [l|]; simpl.
      * apply (construct_ok (arg_name args) (arg_radius args) l);
          [apply is_planet_name_spec, N | exact G].
      * unfold AstronomicalBody.validate_model, AstronomicalBody.required.
        change (Dict.get _ "name") with (Some (VStr (arg_name args))).
        change (Dict.get _ "radius") with (Some (VFloat (arg_radius args))).
        change (Dict.get _ "atmosphere_composition") with (Some VNone).
        cbv iota. rewrite (check_name_planet _ N), (check_radius_positive _ G). reflexivity.
    + rewrite (validate_model_invalid_radius _ (arg_name args) (VFloat (arg_radius args))
                 (atmosphere_value (arg_atmosphere args)) (arg_radius args));
        try reflexivity; try assumption.
      destruct (arg_atmosphere args) as [l|]; cbn [atmosphere_value].
      * now rewrite check_atmosphere_strings.
      * reflexivity.
  - apply (validate_model_invalid_name _ (arg_name args)); [reflexivity | exact N].
Qed.

(** X5: [main] returns exactly when the name is of the fixed set, the radius
    is greater than zero and [--atmosphere] is given; every other run ends
    with an uncaught [UnboundLocalError] for [body]. *)
Theorem main_returns_iff_valid_args (args : Namespace) :
  snd (main args)
  = if valid_args args then Returned else Uncaught (UnboundLocalError "body").
Proof.
  unfold valid_args.
  destruct (is_planet_name (arg_name args)) eqn:N.
  - destruct (PyFloat.gt0 (arg_radius args)) eqn:G.
    + destruct (arg_atmosphere args) as [l|] eqn:A; simpl.
      * unfold main. rewrite main_init, main_init_outcome, N, G, A.
        cbv beta iota zeta delta [handle app].
        rewrite (restored_from_own_json _ _ l (proj1 (is_planet_name_spec _) N) G).
        reflexivity.
      * unfold main. rewrite main_init, main_init_outcome, N, G, A. reflexivity.
    + simpl. unfold main. rewrite main_init, main_init_outcome, N, G.
      destruct (arg_atmosphere args); reflexivity.
  - simpl. unfold main. rewrite main_init, main_init_outcome, N. reflexivity.
Qed.

(** X6: for every name outside the fixed set, whatever the radius and the
    atmosphere, [main] prints the message of the exception with that name
    and the star, creates the context and the window, and ends with the
    uncaught [UnboundLocalError]. *)
Theorem main_invalid_name_run (args : Namespace) :
  ~ In (arg_name args) planet_names ->
  main args
  = (Print [PStr ("Invalid planet name: " ++ arg_name args)] :: star_events,
     Uncaught (UnboundLocalError "body")).
Proof.
  intros H. unfold main.
  rewrite main_init, main_init_outcome, (not_planet_name _ H). reflexivity.
Qed.

Lemma main_invalid_name_run_witness :
  main {| arg_name := "earth"; arg_radius := -1; arg_atmosphere := None |}
  = (Print [PStr "Invalid planet name: earth"] :: star_events,
     Uncaught (UnboundLocalError "body")).
Proof.
  apply (main_invalid_name_run
           {| arg_name := "earth"; arg_radius := -1; arg_atmosphere := None |}).
  simpl. intros [H | [H | [H | [H | H]]]]; try discriminate H. exact H.
Defined.

(** X7: under a name of the fixed set, a radius that is not greater than
    zero or a missing [--atmosphere] makes [main] print
    [Validation Error:] with the errors of the two fields in the order of
    the class, then the star, and end with the uncaught
    [UnboundLocalError]. *)
Theorem main_validation_error_run (args : Namespace) :
  In (arg_name args) planet_names ->
  valid_args args = false ->
  main args
  = (Print [PStr "Validation Error:";
            PErrors ((if PyFloat.gt0 (arg_radius args) then [] else [radius_error])
                     ++ match arg_atmosphere args with
                        | Some _ => []
                        | None => [atmosphere_none_error]
                        end)] :: star_events,
     Uncaught (UnboundLocalError "body"))%list.
Proof.
  intros Hn. apply is_planet_name_spec in Hn. unfold valid_args. rewrite Hn.
  intros V. unfold main. rewrite main_init, main_init_outcome, Hn.
  destruct (PyFloat.gt0 (arg_radius args)), (arg_atmosphere args);
    try discriminate V; reflexivity.
Qed.

Lemma main_validation_error_run_witness :
  main {| arg_name := "Mars"; arg_radius := 0; arg_atmosphere := None |}
  = ([Print [PStr "Validation Error:"; PErrors [radius_error; atmosphere_none_error]]]
     ++ star_events,
     Uncaught (UnboundLocalError "body"))%list.
Proof.
  apply (main_validation_error_run
           {| arg_name := "Mars"; arg_radius := 0; arg_atmosphere := None |}).
  - simpl. do 3 right. left. reflexivity.
  - reflexivity.
Defined.

(** X8: the text [to_json] writes for a record with a radius greater than
    zero is a JSON object with the three keys [name], [radius] and
    [atmosphere_composition], in this order, their values those of the
    record, and nothing else. *)
Theorem to_json_decodes_to_three_keys (b : AstronomicalBody.t) :
  PyFloat.gt0 (AstronomicalBody.radius b) = true ->
  Json.loads (AstronomicalBody.to_json b)
  = Decoded (VDict [("name", VStr (AstronomicalBody.name b));
                    ("radius", VFloat (AstronomicalBody.radius b));
                    ("atmosphere_composition",
                     VList (map VStr (AstronomicalBody.atmosphere_composition b)))]).
Proof.
  intros H. exact (loads_to_json b (positive_float_reads_back _ H)).
Qed.

Lemma to_json_decodes_to_three_keys_witness :
  Json.loads (AstronomicalBody.to_json venus)
  = Decoded (VDict [("name", VStr "Venus"); ("radius", VFloat 6051.75);
                    ("atmosphere_composition", VList [VStr "CO2"; VStr "N2"])]).
Proof.
  apply (to_json_decodes_to_three_keys venus). reflexivity.
Defined.

Lemma map_VStr_injective (a b : list string) : map VStr a = map VStr b -> a = b.
Proof.
  revert b. induction a as [|x a IH]; intros [|y b]; simpl; try discriminate.
  - reflexivity.
  - intros H. injection H as -> H. now rewrite (IH b H).
Qed.

(** X9: [to_json] is injective on the records with a radius greater than
    zero: two records with the same JSON text are the same record. *)
Theorem to_json_injective (b b' : AstronomicalBody.t) :
  PyFloat.gt0 (AstronomicalBody.radius b) = true ->
  PyFloat.gt0 (AstronomicalBody.radius b') = true ->
  AstronomicalBody.to_json b = AstronomicalBody.to_json b' ->
  b = b'.
Proof.
  intros H H' E.
  pose proof (loads_to_json b (positive_float_reads_back _ H)) as L.
  rewrite E, (loads_to_json b' (positive_float_reads_back _ H')) in L.
  destruct b as [n r a], b' as [n' r' a']. unfold AstronomicalBody.dict in L. simpl in L.
  injection L as -> -> M. now rewrite (map_VStr_injective _ _ M).
Qed.

Lemma to_json_injective_witness :
  AstronomicalBody.setattr_radius earth 6371 = earth.
Proof.
  apply to_json_injective; reflexivity.
Defined.

(** X10: [PlanetEnum._value2member_map_], which [validate_name] looks the
    name up in, gives every member back for its value; two members never
    share a value; and a name is accepted exactly when it is the value of a
    member. *)
Theorem value2member_map_lookup :
  (forall p, Dict.get value2member_map (PlanetEnum_value p) = Some p)
  /\ (forall p q, PlanetEnum_value p = PlanetEnum_value q -> p = q)
  /\ (forall v, is_planet_name v = true <-> exists p, PlanetEnum_value p = v).
Proof.
  split; [|split].
  - intros []; reflexivity.
  - intros [] []; simpl; intros H; try reflexivity; discriminate H.
  - intros v. rewrite is_planet_name_spec, planet_names_values, in_map_iff. split.
    + intros [p [E _]]. now exists p.
    + intros [p E]. exists p. split; [exact E|]. destruct p; simpl; tauto.
Qed.

Lemma in_field_names (f : string) :
  In f field_names -> f = "name" \/ f = "radius" \/ f = "atmosphere_composition".
Proof.
  unfold field_names. simpl. intros [H | [H | [H | []]]]; subst; tauto.
Qed.

(** X11: when one of the three fields is missing from the input, the
    constructor returns no record, and a [ValidationError] it raises holds
    the error of the missing field. *)
Theorem missing_field_is_reported (data : list (string * value)) (f : string) :
  In f field_names -> Dict.get data f = None ->
  match AstronomicalBody.init data with
  | Ok _ => False
  | Raise (ValidationError errs) => In {| loc := [LField f]; exc := MissingError |} errs
  | _ => True
  end.
Proof.
  intros Hf G. unfold AstronomicalBody.init.
  destruct (AstronomicalBody.validate_model data) as [b | [errs | | | |] |] eqn:E; try exact I.
  - destruct (validate_model_ok_inv data b E) as [[v1 [G1 _]] [[v2 [G2 _]] [v3 [G3 _]]]].
    destruct (in_field_names f Hf) as [-> | [-> | ->]]; congruence.
  - rewrite (validate_model_errors data errs E). unfold AstronomicalBody.required.
    destruct (in_field_names f Hf) as [-> | [-> | ->]]; rewrite G;
      repeat (apply in_or_app; simpl; tauto || right).
Qed.

Lemma missing_field_is_reported_witness :
  In {| loc := [LField "radius"]; exc := MissingError |}
     [{| loc := [LField "radius"]; exc := MissingError |};
      {| loc := [LField "atmosphere_composition"]; exc := ListError |}].
Proof.
  apply (missing_field_is_reported
           [("name", VStr "Earth"); ("atmosphere_composition", VStr "N2")] "radius").
  - simpl. right. left. reflexivity.
  - reflexivity.
Defined.

(** X12: on the empty text, and on a text of whitespace only, [from_json]
    raises [ValidationError] with the one error of the JSON decoder at
    [__root__]. *)
Theorem from_json_blank_text (s : string) :
  Json.skip_ws s = "" ->
  AstronomicalBody.from_json s = Raise (AstronomicalBody.root_error JSONDecodeError).
Proof.
  intros H. unfold AstronomicalBody.from_json, Json.loads. rewrite H. reflexivity.
Qed.

Lemma from_json_blank_text_witness :
  AstronomicalBody.from_json "" = Raise (AstronomicalBody.root_error JSONDecodeError)
  /\ AstronomicalBody.from_json (String " " newline)
     = Raise (AstronomicalBody.root_error JSONDecodeError).
Proof.
  split; apply from_json_blank_text; reflexivity.
Defined.











(** X14: every run of [main] creates the context of the window; the context
    is destroyed exactly in the runs that return, those with valid
    arguments. *)
Theorem main_context_lifecycle (args : Namespace) :
  In CreateContext (fst (main args))
  /\ (In DestroyContext (fst (main args)) <-> valid_args args = true).
Proof.
  unfold valid_args, main. rewrite main_init, main_init_outcome.
  destruct (is_planet_name (arg_name args)) eqn:N;
    [destruct (PyFloat.gt0 (arg_radius args)) eqn:G;
     [destruct (arg_atmosphere args) as [l|] eqn:A|]|].
  - cbv beta iota zeta delta [handle app].
    rewrite (restored_from_own_json _ _ l (proj1 (is_planet_name_spec _) N) G).
    cbn [fst In app andb]. split; [tauto|]. split; [reflexivity|]. intros _.
    do 15 right. left. reflexivity.
  - cbn [handle app fst In andb]. split; [tauto|].
    split; [|discriminate]. intros [H | [H | [H | [H | []]]]]; discriminate H.
  - destruct (arg_atmosphere args); cbn [handle app fst In andb]; (split; [tauto|]);
      (split; [|discriminate]); intros [H | [H | [H | [H | []]]]]; discriminate H.
  - cbn [handle app fst In andb]. split; [tauto|].
    split; [|discriminate]. intros [H | [H | [H | [H | []]]]]; discriminate H.
Qed.
